(** * interactive-map-preso: a shallow embedding of [map.py]

    The bookmark-to-map transformation of [map.py] is embedded as Rocq
    functions.  Python values loaded from JSON are the [json] type, Python
    exceptions are the [Raise] branch of [result], the map object and the
    standard output are threaded as an explicit [page_state].

    Three collaborators of the program are libraries, not code of the
    repository: the HTTP client ([requests]), the geometry kernel
    ([shapely] + [pyproj]) and the map widget ([folium]).  What they
    answer is a field of a [World] record, so every theorem holds
    whatever they answer; folium objects are records of the arguments
    they were built from, once folium has accepted their locations.
    Python's numbers are the interface [PyNum].  [urllib.parse] follows CPython 3.11 on [str]; a
    [str] is a string of bytes here, which is exact on ASCII text. *)

From Stdlib Require Import String Ascii List ZArith NArith Bool Lia.
From Stdlib Require Import Strings.Byte DecimalString Floats Uint63.
Import ListNotations.

Set Warnings "-register-all".

Open Scope list_scope.
Open Scope string_scope.

(** ** Python exceptions and the error monad

    [RequestException] stands for the exceptions of [requests] (a
    connection error, a timeout, an invalid URL), [GeometryError] for
    those of shapely and pyproj, [TemplateSyntaxError] for the one of
    Jinja2. *)

Inductive exn : Type :=
| KeyError (key : string)
| AttributeError
| TypeError
| ValueError
| IndexError
| ZeroDivisionError
| RequestException (what : string)
| GeometryError (what : string)
| TemplateSyntaxError.

Inductive result (A : Type) : Type :=
| Ok (a : A)
| Raise (e : exn).

Arguments Ok {A} a.
Arguments Raise {A} e.

Definition bind {A B : Type} (r : result A) (k : A -> result B) : result B :=
  match r with
  | Ok a => k a
  | Raise e => Raise e
  end.

Notation "x <- r ;; k" := (bind r (fun x => k))
  (at level 61, r at next level, right associativity).
Notation "' p <- r ;; k" := (bind r (fun p => k))
  (at level 61, p pattern, r at next level, right associativity).

Definition check (rejected : option exn) : result unit :=
  match rejected with
  | None => Ok tt
  | Some e => Raise e
  end.

Fixpoint mapM {A B : Type} (f : A -> result B) (l : list A) : result (list B) :=
  match l with
  | [] => Ok []
  | a :: l' => b <- f a ;; bs <- mapM f l' ;; Ok (b :: bs)
  end.

(** ** Characters and strings *)

Definition dq : string := String "034"%char EmptyString.
Definition nl : string := String "010"%char EmptyString.

Fixpoint spaces (n : nat) : string :=
  match n with
  | O => ""
  | S n' => String " "%char (spaces n')
  end.

Definition is_upper (c : ascii) : bool :=
  let n := N_of_ascii c in (65 <=? n)%N && (n <=? 90)%N.
Definition is_lower (c : ascii) : bool :=
  let n := N_of_ascii c in (97 <=? n)%N && (n <=? 122)%N.
Definition is_digit (c : ascii) : bool :=
  let n := N_of_ascii c in (48 <=? n)%N && (n <=? 57)%N.
Definition is_alpha (c : ascii) : bool := is_upper c || is_lower c.

Definition lower_char (c : ascii) : ascii :=
  if is_upper c then ascii_of_N (N_of_ascii c + 32) else c.

Fixpoint lower (s : string) : string :=
  match s with
  | EmptyString => EmptyString
  | String c s' => String (lower_char c) (lower s')
  end.

Fixpoint mem_char (c : ascii) (s : string) : bool :=
  match s with
  | EmptyString => false
  | String d s' => Ascii.eqb c d || mem_char c s'
  end.

Fixpoint forallb_str (p : ascii -> bool) (s : string) : bool :=
  match s with
  | EmptyString => true
  | String c s' => p c && forallb_str p s'
  end.

(** [s.partition(c)]: the text before and after the first [c]. *)
Fixpoint partition (c : ascii) (s : string) : option (string * string) :=
  match s with
  | EmptyString => None
  | String d s' =>
      if Ascii.eqb d c then Some (EmptyString, s')
      else match partition c s' with
           | Some (b, a) => Some (String d b, a)
           | None => None
           end
  end.

(** [s.rpartition(c)]: the text before and after the last [c]. *)
Fixpoint rpartition (c : ascii) (s : string) : option (string * string) :=
  match s with
  | EmptyString => None
  | String d s' =>
      match rpartition c s' with
      | Some (b, a) => Some (String d b, a)
      | None => if Ascii.eqb d c then Some (EmptyString, s') else None
      end
  end.

(** [s.split(c)]: always at least one field. *)
Fixpoint split (c : ascii) (s : string) : list string :=
  match s with
  | EmptyString => [EmptyString]
  | String d s' =>
      if Ascii.eqb d c then EmptyString :: split c s'
      else match split c s' with
           | f :: fs => String d f :: fs
           | [] => [String d EmptyString]
           end
  end.

(** [s.replace(a, b)] for single characters. *)
Fixpoint replace_char (a b : ascii) (s : string) : string :=
  match s with
  | EmptyString => EmptyString
  | String d s' => String (if Ascii.eqb d a then b else d) (replace_char a b s')
  end.

Fixpoint remove_chars (cs : string) (s : string) : string :=
  match s with
  | EmptyString => EmptyString
  | String d s' =>
      if mem_char d cs then remove_chars cs s' else String d (remove_chars cs s')
  end.

Fixpoint lstrip (p : ascii -> bool) (s : string) : string :=
  match s with
  | EmptyString => EmptyString
  | String d s' => if p d then lstrip p s' else s
  end.

(** The longest prefix whose characters satisfy [p], and the rest. *)
Fixpoint span (p : ascii -> bool) (s : string) : string * string :=
  match s with
  | EmptyString => (EmptyString, EmptyString)
  | String d s' =>
      if p d then let '(a, b) := span p s' in (String d a, b)
      else (EmptyString, s)
  end.

Definition startswith (pre s : string) : bool := String.prefix pre s.

Definition tail (s : string) : string :=
  match s with
  | EmptyString => EmptyString
  | String _ s' => s'
  end.

(** [needle in s]. *)
Fixpoint contains (needle s : string) : bool :=
  String.prefix needle s ||
  match s with
  | EmptyString => false
  | String _ s' => contains needle s'
  end.

Definition string_of_nat (n : nat) : string :=
  NilEmpty.string_of_uint (Nat.to_uint n).

(** ** base64 (RFC 4648), as [base64.b64encode] *)

Definition b64_alphabet : string :=
  "ABCDEFGHIJKLMNOPQRSTUVWXYZabcdefghijklmnopqrstuvwxyz0123456789+/".

Definition b64_char (i : N) : ascii :=
  match String.get (N.to_nat i) b64_alphabet with
  | Some c => c
  | None => "="%char
  end.

Definition sextet (n : N) (k : N) : ascii :=
  b64_char (N.land (N.shiftr n (6 * k)) 63).

(** The 24-bit group of three octets. *)
Definition group (a b c : N) : N :=
  N.lor (N.lor (N.shiftl a 16) (N.shiftl b 8)) c.

Fixpoint b64encode (bs : list byte) : string :=
  match bs with
  | [] => ""
  | [a] =>
      let n := group (Byte.to_N a) 0 0 in
      String (sextet n 3) (String (sextet n 2) "==")
  | [a; b] =>
      let n := group (Byte.to_N a) (Byte.to_N b) 0 in
      String (sextet n 3) (String (sextet n 2) (String (sextet n 1) "="))
  | a :: b :: c :: rest =>
      let n := group (Byte.to_N a) (Byte.to_N b) (Byte.to_N c) in
      String (sextet n 3) (String (sextet n 2) (String (sextet n 1)
        (String (sextet n 0) (b64encode rest))))
  end.

(** Decoding, as RFC 4648 section 4 describes it: four characters give
    three octets, and padding closes the text. *)
Fixpoint index_from (i : N) (c : ascii) (s : string) : option N :=
  match s with
  | EmptyString => None
  | String d s' => if Ascii.eqb c d then Some i else index_from (N.succ i) c s'
  end.

Definition b64_index (c : ascii) : option N := index_from 0 c b64_alphabet.

Definition octet (m : N) (k : N) : byte :=
  match Byte.of_N (N.land (N.shiftr m (8 * k)) 255) with
  | Some b => b
  | None => x00
  end.

Definition quantum (i3 i2 i1 i0 : N) : N :=
  N.lor (N.lor (N.lor (N.shiftl i3 18) (N.shiftl i2 12)) (N.shiftl i1 6)) i0.

Fixpoint b64decode (s : string) : option (list byte) :=
  match s with
  | EmptyString => Some []
  | String c3 (String c2 (String c1 (String c0 rest))) =>
      match b64_index c3, b64_index c2 with
      | Some i3, Some i2 =>
          match b64_index c1, b64_index c0 with
          | Some i1, Some i0 =>
              match b64decode rest with
              | Some bs =>
                  let m := quantum i3 i2 i1 i0 in
                  Some (octet m 2 :: octet m 1 :: octet m 0 :: bs)
              | None => None
              end
          | Some i1, None =>
              if Ascii.eqb c0 "=" && String.eqb rest ""
              then let m := quantum i3 i2 i1 0 in Some [octet m 2; octet m 1]
              else None
          | None, _ =>
              if Ascii.eqb c1 "=" && Ascii.eqb c0 "=" && String.eqb rest ""
              then let m := quantum i3 i2 0 0 in Some [octet m 2]
              else None
          end
      | _, _ => None
      end
  | _ => None
  end.


(** The sextet of [n] at position [k], as a number. *)
Definition sext (n k : N) : N := N.land (N.shiftr n (6 * k)) 63.

Definition bytes_of_string (s : string) : list byte := list_byte_of_string s.

(** ** Python numbers

    [int] and [float] are kept behind an interface: the program only adds
    coordinates, divides by a length or a constant, tests for zero and
    formats.  [num_dec m e] is the literal [m * 10^e] (so [1609.34] is
    [num_dec 160934 (-2)]); [num_truediv] is [/] on a non-zero divisor. *)

Class PyNum (num : Type) : Type := {
  num_of_nat : nat -> num;
  num_dec : Z -> Z -> num;
  num_add : num -> num -> num;
  num_truediv : num -> num -> num;
  num_is_zero : num -> bool;
  num_str : num -> string;
  num_fmt2f : num -> string
}.

(** ** Values loaded by [json.load]

    A dict is its list of items in insertion order; a key is looked up at
    its first item. *)

Inductive json (num : Type) : Type :=
| JNull
| JBool (b : bool)
| JNum (n : num)
| JStr (s : string)
| JArr (items : list (json num))
| JObj (items : list (string * json num)).

Arguments JNull {num}.
Arguments JBool {num} b.
Arguments JNum {num} n.
Arguments JStr {num} s.
Arguments JArr {num} items.
Arguments JObj {num} items.

(** ** The libraries around the program *)

Record Response : Type := {
  status_code : Z;
  headers : list (string * string);
  content : list byte
}.

(** - [requests_get]: [requests.get(url)], a response or a transport error;
    - [unquote_escapes]: [urllib.parse.unquote] on a string that holds a
      percent sign;
    - [valid_bracketed_host], [netloc_nfkc_ok]: the two checks of
      [urlsplit] on a bracketed host and on a non-ASCII netloc;
    - [projected_length], [projected_area]: shapely's [LineString] /
      [Polygon] built from (lon, lat) pairs, projected to EPSG:3857 by
      pyproj, then [.length] / [.area];
    - [folium_location], [folium_locations]: the exception, if any, with
      which [folium.Marker] rejects its [lat, lon] location and
      [folium.PolyLine] / [folium.Polygon] their list of locations;
    - [repr_str]: [repr] of a [str];
    - [get_name]: [m.get_name()], the name folium gives the map object
      ([map_] and an identifier drawn for the run);
    - [json_dumps]: [json.dumps] of the standard library;
    - [element_template]: the exception, if any, with which
      [folium.Element] rejects its text, which it compiles as a Jinja2
      template. *)
Record World (num : Type) : Type := {
  requests_get : json num -> result Response;
  unquote_escapes : string -> string;
  valid_bracketed_host : string -> bool;
  netloc_nfkc_ok : string -> bool;
  projected_length : list (json num * json num) -> result num;
  projected_area : list (json num * json num) -> result num;
  folium_location : json num * json num -> option exn;
  folium_locations : list (json num * json num) -> option exn;
  repr_str : string -> string;
  get_name : string;
  json_dumps : json num -> string;
  element_template : string -> option exn
}.

Arguments requests_get {num} w url.
Arguments unquote_escapes {num} w s.
Arguments valid_bracketed_host {num} w s.
Arguments netloc_nfkc_ok {num} w s.
Arguments projected_length {num} w pts.
Arguments projected_area {num} w pts.
Arguments folium_location {num} w location.
Arguments folium_locations {num} w locations.
Arguments repr_str {num} w s.
Arguments get_name {num} w.
Arguments json_dumps {num} w v.
Arguments element_template {num} w text.

(** ** urllib.parse on [str] *)

Record ParseResult : Type := {
  scheme : string;
  netloc : string;
  path : string;
  params : string;
  query : string;
  fragment : string
}.

Definition scheme_chars : string :=
  "abcdefghijklmnopqrstuvwxyzABCDEFGHIJKLMNOPQRSTUVWXYZ0123456789+-.".

Definition uses_params : list string :=
  [""; "ftp"; "hdl"; "prospero"; "http"; "imap"; "https"; "shttp"; "rtsp";
   "rtspu"; "sip"; "sips"; "mms"; "sftp"; "tel"].

Definition is_c0_control_or_space (c : ascii) : bool := (N_of_ascii c <=? 32)%N.
Definition is_ascii (c : ascii) : bool := (N_of_ascii c <? 128)%N.
Definition unsafe_url_bytes : string :=
  String "009"%char (String "013"%char (String "010"%char EmptyString)).

(** [_splitparams]: the parameters of the last path segment. *)
Definition splitparams (url : string) : string * string :=
  match rpartition "/" url with
  | Some (before, last) =>
      match partition ";" last with
      | Some (a, b) => (before ++ "/" ++ a, b)
      | None => (url, "")
      end
  | None =>
      match partition ";" url with
      | Some (a, b) => (a, b)
      | None => (url, "")
      end
  end.

Definition string_mem (s : string) (l : list string) : bool :=
  existsb (String.eqb s) l.

(** The [hostname] property of a parse result. *)
Definition hostname (p : ParseResult) : option string :=
  let hostinfo :=
    match rpartition "@" (netloc p) with
    | Some (_, a) => a
    | None => netloc p
    end in
  let host :=
    match partition "[" hostinfo with
    | Some (_, bracketed) =>
        match partition "]" bracketed with
        | Some (h, _) => h
        | None => bracketed
        end
    | None =>
        match partition ":" hostinfo with
        | Some (h, _) => h
        | None => hostinfo
        end
    end in
  if String.eqb host "" then None
  else match partition "%" host with
       | Some (h, zone) => Some (lower h ++ "%" ++ zone)
       | None => Some (lower host)
       end.

Section Program.

Context {num : Type} {N : PyNum num} (W : World num).

Abbreviation json := (json num).

(** *** Python's dynamic operations on loaded values *)

Definition py_truthy (v : json) : bool :=
  match v with
  | JNull => false
  | JBool b => b
  | JNum n => negb (num_is_zero n)
  | JStr s => negb (String.eqb s "")
  | JArr l => match l with [] => false | _ => true end
  | JObj kv => match kv with [] => false | _ => true end
  end.

Fixpoint lookup (k : string) (kv : list (string * json)) : option json :=
  match kv with
  | [] => None
  | (k', v) :: kv' => if String.eqb k' k then Some v else lookup k kv'
  end.

Definition dict_get (kv : list (string * json)) (k : string) (default : json) : json :=
  match lookup k kv with
  | Some x => x
  | None => default
  end.

(** [v.get(k, default)] *)
Definition py_get (v : json) (k : string) (default : json) : result json :=
  match v with
  | JObj kv => Ok (dict_get kv k default)
  | _ => Raise AttributeError
  end.

(** [v[k]] for a string key *)
Definition py_getitem (v : json) (k : string) : result json :=
  match v with
  | JObj kv =>
      match lookup k kv with
      | Some x => Ok x
      | None => Raise (KeyError k)
      end
  | _ => Raise TypeError
  end.

(** [v == s] for a string literal [s] *)
Definition py_eq_str (v : json) (s : string) : bool :=
  match v with
  | JStr t => String.eqb t s
  | _ => false
  end.

Fixpoint chars (s : string) : list json :=
  match s with
  | EmptyString => []
  | String c s' => JStr (String c EmptyString) :: chars s'
  end.

(** Iteration: a list gives its items, a str its characters, a dict its keys. *)
Definition py_iter (v : json) : result (list json) :=
  match v with
  | JArr l => Ok l
  | JStr s => Ok (chars s)
  | JObj kv => Ok (map (fun p => JStr (fst p)) kv)
  | _ => Raise TypeError
  end.

(** [a, b = v] *)
Definition py_unpack2 (v : json) : result (json * json) :=
  l <- py_iter v ;;
  match l with
  | [a; b] => Ok (a, b)
  | _ => Raise ValueError
  end.

(** [v[0]] *)
Definition py_getitem0 (v : json) : result json :=
  match v with
  | JArr (x :: _) => Ok x
  | JArr [] => Raise IndexError
  | JStr (String c _) => Ok (JStr (String c EmptyString))
  | JStr EmptyString => Raise IndexError
  | JObj _ => Raise (KeyError "0")
  | _ => Raise TypeError
  end.

Fixpoint join (sep : string) (l : list string) : string :=
  match l with
  | [] => ""
  | [s] => s
  | s :: l' => s ++ sep ++ join sep l'
  end.

(** [repr(v)] and [str(v)]: they differ on a [str] only. *)
Fixpoint py_repr (v : json) : string :=
  match v with
  | JNull => "None"
  | JBool true => "True"
  | JBool false => "False"
  | JNum n => num_str n
  | JStr s => repr_str W s
  | JArr l => "[" ++ join ", " (map py_repr l) ++ "]"
  | JObj kv =>
      "{" ++ join ", " (map (fun p => repr_str W (fst p) ++ ": " ++ py_repr (snd p)) kv) ++ "}"
  end.

Definition py_str (v : json) : string :=
  match v with
  | JStr s => s
  | _ => py_repr v
  end.

(** *** Media resolver *)

(** [headers.get(k, default)] on requests' case-insensitive dict *)
Fixpoint headers_get (h : list (string * string)) (k default : string) : string :=
  match h with
  | [] => default
  | (k', v) :: h' => if String.eqb (lower k') (lower k) then v else headers_get h' k default
  end.

Definition fetch_image_data_uri (url : json) : result string :=
  response <- requests_get W url ;;
  if (status_code response =? 200)%Z then
    let content_type := headers_get (headers response) "Content-Type" "" in
    let data := b64encode (content response) in
    Ok ("data:" ++ content_type ++ ";base64," ++ data)
  else Ok "".

Definition checknetloc (netloc : string) : bool :=
  String.eqb netloc "" || forallb_str is_ascii netloc || netloc_nfkc_ok W netloc.

Definition urlparse (url : string) : result ParseResult :=
  let url := lstrip is_c0_control_or_space url in
  let url := remove_chars unsafe_url_bytes url in
  let '(scheme, url) :=
    match partition ":" url with
    | Some (String c0 pre, rest) =>
        if is_alpha c0 && forallb_str (fun c => mem_char c scheme_chars) (String c0 pre)
        then (lower (String c0 pre), rest)
        else ("", url)
    | _ => ("", url)
    end in
  '(netloc, url) <-
    match url with
    | String "/" (String "/" rest) =>
        let '(netloc, url') := span (fun c => negb (mem_char c "/?#")) rest in
        let has_open := mem_char "[" netloc in
        let has_close := mem_char "]" netloc in
        if (has_open && negb has_close) || (has_close && negb has_open)
        then Raise ValueError
        else if has_open && has_close
                && negb (valid_bracketed_host W
                           (match partition "[" netloc with
                            | Some (_, a) =>
                                match partition "]" a with
                                | Some (h, _) => h
                                | None => a
                                end
                            | None => ""
                            end))
        then Raise ValueError
        else Ok (netloc, url')
    | _ => Ok ("", url)
    end ;;
  let '(url, fragment) :=
    match partition "#" url with
    | Some (a, b) => (a, b)
    | None => (url, "")
    end in
  let '(url, query) :=
    match partition "?" url with
    | Some (a, b) => (a, b)
    | None => (url, "")
    end in
  if negb (checknetloc netloc) then Raise ValueError
  else
    let '(url, params) :=
      if string_mem scheme uses_params && mem_char ";" url
      then splitparams url
      else (url, "") in
    Ok {| scheme := scheme; netloc := netloc; path := url;
          params := params; query := query; fragment := fragment |}.

Definition unquote (s : string) : string :=
  if mem_char "%" s then unquote_escapes W s else s.

(** [parse_qsl(qs)] with its defaults: blank values are dropped. *)
Definition parse_qsl (qs : string) : list (string * string) :=
  if String.eqb qs "" then []
  else
    flat_map
      (fun name_value =>
         if String.eqb name_value "" then []
         else match partition "=" name_value with
              | None => []
              | Some (n, v) =>
                  if String.eqb v "" then []
                  else [(unquote (replace_char "+" " " n),
                         unquote (replace_char "+" " " v))]
              end)
      (split "&" qs).

(** [parse_qs(qs).get(k, [None])[0]]: the first value recorded for [k]. *)
Fixpoint first_value (k : string) (pairs : list (string * string)) : option string :=
  match pairs with
  | [] => None
  | (n, v) :: pairs' => if String.eqb n k then Some v else first_value k pairs'
  end.

Definition extract_parsed (parsed_url : ParseResult) : result (option string) :=
  if match hostname parsed_url with
     | Some h => String.eqb h "youtu.be"
     | None => false
     end
  then Ok (Some (tail (path parsed_url)))
  else if match hostname parsed_url with
          | Some h => string_mem h ["www.youtube.com"; "youtube.com"]
          | None => false
          end
  then
    if String.eqb (path parsed_url) "/watch"
    then Ok (first_value "v" (parse_qsl (query parsed_url)))
    else if startswith "/embed/" (path parsed_url)
    then match nth_error (split "/" (path parsed_url)) 2 with
         | Some id => Ok (Some id)
         | None => Raise IndexError
         end
    else Ok None
  else Ok None.

(** A [str] is parsed; any other value goes through [urlparse]'s bytes
    route, which decodes a false value to the empty URL and fails on a
    true one for want of [decode]. *)
Definition extract_youtube_video_id (url : json) : result (option string) :=
  match url with
  | JStr s => parsed_url <- urlparse s ;; extract_parsed parsed_url
  | _ => if py_truthy url then Raise AttributeError else Ok None
  end.

Definition get_youtube_thumbnail_data_uri (video_url : json) : result string :=
  video_id <- extract_youtube_video_id video_url ;;
  match video_id with
  | Some id =>
      if negb (String.eqb id "")
      then fetch_image_data_uri
             (JStr ("https://img.youtube.com/vi/" ++ id ++ "/hqdefault.jpg"))
      else Ok ""
  | None => Ok ""
  end.

(** *** Popup content builder *)

Definition create_bookmark_content (content : json) : result string :=
  if negb (py_truthy content) then Ok ""
  else
    type <- py_get content "type" JNull ;;
    if py_eq_str type "video" then
      url <- py_getitem content "url" ;;
      img_data_uri <- get_youtube_thumbnail_data_uri url ;;
      title <- py_get content "title" (JStr "") ;;
      Ok (nl ++ spaces 12 ++ "<div class=" ++ dq ++ "modal-content" ++ dq ++ ">"
          ++ nl ++ spaces 16 ++ "<h3>" ++ py_str title ++ "</h3>"
          ++ nl ++ spaces 16 ++ "<a href=" ++ dq ++ py_str url ++ dq
                ++ " target=" ++ dq ++ "_blank" ++ dq ++ ">"
          ++ nl ++ spaces 20 ++ "<img src=" ++ dq ++ img_data_uri ++ dq
                ++ " alt=" ++ dq ++ py_str title ++ dq
                ++ " style=" ++ dq ++ "max-width:100%;" ++ dq ++ ">"
          ++ nl ++ spaces 16 ++ "</a>"
          ++ nl ++ spaces 16 ++ "<p>Click the image to watch the video.</p>"
          ++ nl ++ spaces 12 ++ "</div>"
          ++ nl ++ spaces 8)
    else if py_eq_str type "image" then
      url <- py_getitem content "url" ;;
      img_data_uri <- fetch_image_data_uri url ;;
      title <- py_get content "title" (JStr "") ;;
      Ok (nl ++ spaces 12 ++ "<div class=" ++ dq ++ "modal-content" ++ dq ++ ">"
          ++ nl ++ spaces 16 ++ "<h3>" ++ py_str title ++ "</h3>"
          ++ nl ++ spaces 16 ++ "<img src=" ++ dq ++ img_data_uri ++ dq
                ++ " alt=" ++ dq ++ py_str title ++ dq
                ++ " style=" ++ dq ++ "max-width:100%;" ++ dq ++ ">"
          ++ nl ++ spaces 12 ++ "</div>"
          ++ nl ++ spaces 8)
    else if py_eq_str type "text" then
      title <- py_get content "title" (JStr "") ;;
      text <- py_get content "text" (JStr "") ;;
      Ok (nl ++ spaces 12 ++ "<div class=" ++ dq ++ "modal-content" ++ dq ++ ">"
          ++ nl ++ spaces 16 ++ "<h3>" ++ py_str title ++ "</h3>"
          ++ nl ++ spaces 16 ++ "<p>" ++ py_str text ++ "</p>"
          ++ nl ++ spaces 12 ++ "</div>"
          ++ nl ++ spaces 8)
    else Ok "".

End Program.

(** ** folium objects, as the arguments they were built from *)

Record Icon : Type := {
  icon : string;
  prefix : string;
  color : string;
  icon_color : string
}.

Record Popup : Type := {
  html : string;
  max_width : nat
}.

Record TileLayer : Type := {
  tiles : string;
  name : string;
  attr : string;
  control : bool;
  show : bool;
  layer_id : string
}.

Section Renderer.

Context {num : Type} {N : PyNum num} (W : World num).

Abbreviation json := (json num).

Inductive Feature : Type :=
| Marker (location : json * json) (popup : Popup) (marker_icon : Icon) (tooltip : json)
| PolyLine (locations : list (json * json)) (line_color weight opacity : json)
           (tooltip : json) (popup : Popup)
| Polygon (locations : list (json * json))
          (line_color weight fill_color fill_opacity : json)
          (tooltip : json) (popup : Popup).

(** The map object [m] and the standard output. *)
Record page_state : Type := {
  features : list Feature;
  stdout : list string
}.

Definition add_to (f : Feature) (m : page_state) : page_state :=
  {| features := features m ++ [f]; stdout := stdout m |}%list.

Definition print (line : string) (m : page_state) : page_state :=
  {| features := features m; stdout := stdout m ++ [line] |}%list.

Record NavigationEntry : Type := {
  lat : json;
  lon : json;
  zoom : json;
  tile_layer : json
}.

Definition icon_map : list (string * string) :=
  [("video", "video-camera"); ("image", "camera");
   ("text", "align-left"); ("info-sign", "info-sign")].

Fixpoint assoc (k : string) (l : list (string * string)) : option string :=
  match l with
  | [] => None
  | (k', v) :: l' => if String.eqb k' k then Some v else assoc k l'
  end.

(** [icon_map.get(icon_type, 'info-sign')]: a list or a dict is not hashable. *)
Definition create_custom_icon (icon_type : json) : result Icon :=
  name <-
    match icon_type with
    | JStr s =>
        match assoc s icon_map with
        | Some i => Ok i
        | None => Ok "info-sign"
        end
    | JArr _ | JObj _ => Raise TypeError
    | _ => Ok "info-sign"
    end ;;
  Ok {| icon := name; prefix := "fa"; color := "blue"; icon_color := "#000" |}.

(** [[(lon, lat) for lon, lat in coordinates]] *)
Definition lon_lat_pairs (coordinates : json) : result (list (json * json)) :=
  pts <- py_iter coordinates ;;
  mapM py_unpack2 pts.

Definition calculate_line_length (coordinates : json) : result num :=
  line <- lon_lat_pairs coordinates ;;
  projected_len <- projected_length W line ;;
  let length_in_miles := num_truediv projected_len (num_dec 160934 (-2)) in
  Ok length_in_miles.

Definition calculate_polygon_area (coordinates : json) : result num :=
  ring <- py_getitem0 coordinates ;;
  polygon <- lon_lat_pairs ring ;;
  projected_ar <- projected_area W polygon ;;
  let area_in_sq_miles := num_truediv projected_ar (num_dec 259 4) in
  Ok area_in_sq_miles.

(** [0 + x] and [acc + x] inside [sum]: a bool counts as an int. *)
Definition py_add (acc : num) (x : json) : result num :=
  match x with
  | JNum n => Ok (num_add acc n)
  | JBool b => Ok (num_add acc (num_of_nat (if b then 1 else 0)))
  | _ => Raise TypeError
  end.

Fixpoint py_sum_from (acc : num) (l : list json) : result num :=
  match l with
  | [] => Ok acc
  | x :: l' => acc' <- py_add acc x ;; py_sum_from acc' l'
  end.

(** [sum(l)]: the items are added from the left, starting at the int 0
    (CPython 3.11; from 3.12 on the rounding of floats is compensated). *)
Definition py_sum (l : list json) : result num := py_sum_from (num_of_nat 0) l.

(** [sum(l) / len(l)] *)
Definition py_mean (l : list json) : result num :=
  s <- py_sum l ;;
  match l with
  | [] => Raise ZeroDivisionError
  | _ => Ok (num_truediv s (num_of_nat (length l)))
  end.

Definition swap (p : json * json) : json * json := (snd p, fst p).

Definition add_bookmark_to_map (bookmark : json) (m : page_state) (center : json * json)
  : result (NavigationEntry * page_state) :=
  geometry <- py_get bookmark "geometry" (JObj []) ;;
  geom_type <- py_get geometry "type" JNull ;;
  coordinates <- py_get geometry "coordinates" (JArr []) ;;
  tile_layer <- py_get bookmark "tile_layer" (JStr "Positron") ;;
  title <- py_get bookmark "title" (JStr "Untitled") ;;
  content <- py_get bookmark "content" (JObj []) ;;
  popup_content <- create_bookmark_content W content ;;
  style <- py_get bookmark "style" (JObj []) ;;
  '(location, m) <-
    (if py_eq_str geom_type "Point" then
       '(lon, lat) <- py_unpack2 coordinates ;;
       let location := (lat, lon) in
       icon_type <- py_get content "type" (JStr "info-sign") ;;
       custom_icon <- create_custom_icon icon_type ;;
       _ <- check (folium_location W location) ;;
       let marker :=
         Marker location {| html := popup_content; max_width := 600 |}
                custom_icon title in
       Ok (location, add_to marker m)
     else if py_eq_str geom_type "LineString" then
       pairs <- lon_lat_pairs coordinates ;;
       let latlngs := map swap pairs in
       line_color <- py_get style "color" (JStr "blue") ;;
       weight <- py_get style "weight" (JNum (num_of_nat 5)) ;;
       opacity <- py_get style "opacity" (JNum (num_dec 7 (-1))) ;;
       _ <- check (folium_locations W latlngs) ;;
       length_in_miles <- calculate_line_length coordinates ;;
       let length_str := "Length: " ++ num_fmt2f length_in_miles ++ " miles" in
       let popup_content :=
         if negb (String.eqb popup_content "")
         then popup_content ++ "<p>" ++ length_str ++ "</p>"
         else "<div class='modal-content'><h3>" ++ py_str W title ++ "</h3><p>"
              ++ length_str ++ "</p></div>" in
       let polyline :=
         PolyLine latlngs line_color weight opacity title
                  {| html := popup_content; max_width := 600 |} in
       let mid_index := Nat.div (length latlngs) 2 in
       match nth_error latlngs mid_index with
       | Some location => Ok (location, add_to polyline m)
       | None => Raise IndexError
       end
     else if py_eq_str geom_type "Polygon" then
       ring <- py_getitem0 coordinates ;;
       pairs <- lon_lat_pairs ring ;;
       let latlngs := map swap pairs in
       line_color <- py_get style "color" (JStr "red") ;;
       weight <- py_get style "weight" (JNum (num_of_nat 2)) ;;
       fill_color <- py_get style "fillColor" (JStr "red") ;;
       fill_opacity <- py_get style "fillOpacity" (JNum (num_dec 5 (-1))) ;;
       _ <- check (folium_locations W latlngs) ;;
       area_in_sq_miles <- calculate_polygon_area coordinates ;;
       let area_str := "Area: " ++ num_fmt2f area_in_sq_miles ++ " square miles" in
       let popup_content :=
         if negb (String.eqb popup_content "")
         then popup_content ++ "<p>" ++ area_str ++ "</p>"
         else "<div class='modal-content'><h3>" ++ py_str W title ++ "</h3><p>"
              ++ area_str ++ "</p></div>" in
       let polygon :=
         Polygon latlngs line_color weight fill_color fill_opacity title
                 {| html := popup_content; max_width := 600 |} in
       let lats := map fst latlngs in
       let lons := map snd latlngs in
       mean_lat <- py_mean lats ;;
       mean_lon <- py_mean lons ;;
       Ok ((JNum mean_lat, JNum mean_lon), add_to polygon m)
     else
       Ok (center, print ("Unsupported geometry type: " ++ py_str W geom_type) m)) ;;
  zoom <- py_get bookmark "zoom" (JNum (num_of_nat 13)) ;;
  Ok ({| lat := fst location; lon := snd location;
         zoom := zoom; tile_layer := tile_layer |}, m).

(** *** Page assembler *)

Definition tile_layers : list TileLayer :=
  [ {| tiles := "OpenStreetMap"; name := "OpenStreetMap";
       attr := "© OpenStreetMap contributors";
       control := true; show := false; layer_id := "OpenStreetMap" |};
    {| tiles := "CartoDB positron"; name := "Positron";
       attr := "© OpenStreetMap contributors © CARTO";
       control := true; show := true; layer_id := "Positron" |};
    {| tiles := "CartoDB dark_matter"; name := "Dark Matter";
       attr := "© OpenStreetMap contributors © CARTO";
       control := true; show := false; layer_id := "Dark Matter" |};
    {| tiles := "https://server.arcgisonline.com/ArcGIS/rest/services/World_Imagery/MapServer/tile/{z}/{y}/{x}";
       name := "Esri Satellite"; attr := "Tiles © Esri";
       control := true; show := false; layer_id := "Esri Satellite" |} ].

(** The loop that fills [locations_js], from position [i] on. *)
Fixpoint collect_locations (i : nat) (bookmarks : list json) (m : page_state)
  (center : json * json) : result (list (nat * NavigationEntry) * page_state) :=
  match bookmarks with
  | [] => Ok ([], m)
  | bookmark :: rest =>
      '(location_data, m) <- add_bookmark_to_map bookmark m center ;;
      '(locations_js, m) <- collect_locations (S i) rest m center ;;
      Ok ((i, location_data) :: locations_js, m)
  end.

Definition bookmark_link (i : nat) (title : json) : string :=
  "<a class=" ++ dq ++ "bookmark-link" ++ dq ++ " href=" ++ dq ++ "#" ++ dq
  ++ " onclick=" ++ dq ++ "zoomToLocation(" ++ string_of_nat i
  ++ "); return false;" ++ dq ++ ">" ++ py_str W title ++ "</a>".

(** The generator joined into [nav_links], from position [i] on. *)
Fixpoint nav_link_list (i : nat) (bookmarks : list json) : result (list string) :=
  match bookmarks with
  | [] => Ok []
  | bookmark :: rest =>
      title <- py_getitem bookmark "title" ;;
      links <- nav_link_list (S i) rest ;;
      Ok (bookmark_link i title :: links)
  end.

(** The dict that [add_bookmark_to_map] returns, and [locations_js] as
    [json.dumps] writes it: an int key is written as its decimal string. *)
Definition entry_dict (e : NavigationEntry) : json :=
  JObj [("lat", lat e); ("lon", lon e); ("zoom", zoom e);
        ("tile_layer", tile_layer e)].

Definition locations_dict (locations_js : list (nat * NavigationEntry)) : json :=
  JObj (map (fun kv => (string_of_nat (fst kv), entry_dict (snd kv))) locations_js).

(** The script, after [.format(map_name=..., locations_js=...)]. *)
Definition nav_js (map_name locations_js : string) : string :=
  nl ++ spaces 4 ++ "<script>"
  ++ nl ++ spaces 4 ++ "function initMapFunctions() {"
  ++ nl ++ spaces 8 ++ "const locations = " ++ locations_js ++ ";"
  ++ nl
  ++ nl ++ spaces 8 ++ "var tileLayers = {};"
  ++ nl
  ++ nl ++ spaces 8 ++ map_name ++ ".eachLayer(function(layer) {"
  ++ nl ++ spaces 12 ++ "if (layer instanceof L.TileLayer) {"
  ++ nl ++ spaces 16 ++ "if (layer.options && layer.options.id) {"
  ++ nl ++ spaces 20 ++ "tileLayers[layer.options.id] = layer;"
  ++ nl ++ spaces 16 ++ "}"
  ++ nl ++ spaces 12 ++ "}"
  ++ nl ++ spaces 8 ++ "});"
  ++ nl
  ++ nl ++ spaces 8 ++ "function switchTileLayer(tileName) {"
  ++ nl ++ spaces 12 ++ "for (var key in tileLayers) {"
  ++ nl ++ spaces 16 ++ map_name ++ ".removeLayer(tileLayers[key]);"
  ++ nl ++ spaces 12 ++ "}"
  ++ nl ++ spaces 12 ++ "if (tileLayers[tileName]) {"
  ++ nl ++ spaces 16 ++ "tileLayers[tileName].addTo(" ++ map_name ++ ");"
  ++ nl ++ spaces 12 ++ "} else {"
  ++ nl ++ spaces 16 ++ "console.error('Tile layer ' + tileName + ' not found.');"
  ++ nl ++ spaces 12 ++ "}"
  ++ nl ++ spaces 8 ++ "}"
  ++ nl
  ++ nl ++ spaces 8 ++ "function zoomToLocation(id) {"
  ++ nl ++ spaces 12 ++ "const loc = locations[id];"
  ++ nl ++ spaces 12 ++ "if (loc) {"
  ++ nl ++ spaces 16 ++ "// Switch tile layer"
  ++ nl ++ spaces 16 ++ "switchTileLayer(loc.tile_layer);"
  ++ nl
  ++ nl ++ spaces 16 ++ "// Fly to location"
  ++ nl ++ spaces 16 ++ map_name ++ ".flyTo([loc.lat, loc.lon], loc.zoom);"
  ++ nl ++ spaces 12 ++ "}"
  ++ nl ++ spaces 8 ++ "}"
  ++ nl
  ++ nl ++ spaces 8 ++ "function onMapClick(e) {"
  ++ nl ++ spaces 12 ++ "var lat = e.latlng.lat.toFixed(5);"
  ++ nl ++ spaces 12 ++ "var lng = e.latlng.lng.toFixed(5);"
  ++ nl ++ spaces 12 ++ "var latlngStr = lat + ', ' + lng;"
  ++ nl ++ spaces 12 ++ "navigator.clipboard.writeText(latlngStr).then(function() {"
  ++ nl ++ spaces 16 ++ "alert('Coordinates ' + latlngStr + ' copied to clipboard.');"
  ++ nl ++ spaces 12 ++ "}, function(err) {"
  ++ nl ++ spaces 16 ++ "console.error('Could not copy text: ', err);"
  ++ nl ++ spaces 16 ++ "alert('Could not copy coordinates to clipboard.');"
  ++ nl ++ spaces 12 ++ "});"
  ++ nl ++ spaces 8 ++ "}"
  ++ nl
  ++ nl ++ spaces 8 ++ "// Display zoom level indicator"
  ++ nl ++ spaces 8 ++ "function updateZoomIndicator() {"
  ++ nl ++ spaces 12 ++ "var zoomLevel = " ++ map_name ++ ".getZoom();"
  ++ nl ++ spaces 12 ++ "document.getElementById('zoom-indicator').innerText = 'Zoom Level: ' + zoomLevel;"
  ++ nl ++ spaces 8 ++ "}"
  ++ nl
  ++ nl ++ spaces 8 ++ map_name ++ ".on('click', onMapClick);"
  ++ nl ++ spaces 8 ++ map_name ++ ".on('zoomend', updateZoomIndicator);"
  ++ nl ++ spaces 8 ++ "updateZoomIndicator(); // Initial call"
  ++ nl
  ++ nl ++ spaces 8 ++ "// Expose zoomToLocation globally"
  ++ nl ++ spaces 8 ++ "window.zoomToLocation = zoomToLocation;"
  ++ nl ++ spaces 4 ++ "}"
  ++ nl
  ++ nl ++ spaces 4 ++ "if (document.readyState === 'complete') {"
  ++ nl ++ spaces 8 ++ "initMapFunctions();"
  ++ nl ++ spaces 4 ++ "} else {"
  ++ nl ++ spaces 8 ++ "window.addEventListener('load', initMapFunctions);"
  ++ nl ++ spaces 4 ++ "}"
  ++ nl ++ spaces 4 ++ "</script>"
  ++ nl ++ spaces 4.

Definition zoom_indicator_html : string :=
  nl ++ spaces 4 ++ "<div id=" ++ dq ++ "zoom-indicator" ++ dq
  ++ " class=" ++ dq ++ "zoom-indicator" ++ dq ++ "></div>"
  ++ nl ++ spaces 4.

(** The style sheet, after [.format(map_id=...)]. *)
Definition custom_css (map_id : string) : string :=
  nl ++ spaces 4 ++ "<style>"
  ++ nl ++ spaces 4 ++ "body {"
  ++ nl ++ spaces 8 ++ "margin: 0;"
  ++ nl ++ spaces 8 ++ "padding: 0;"
  ++ nl ++ spaces 8 ++ "display: flex;"
  ++ nl ++ spaces 8 ++ "height: 100vh;"
  ++ nl ++ spaces 8 ++ "width: 100vw;"
  ++ nl ++ spaces 8 ++ "overflow: hidden;"
  ++ nl ++ spaces 4 ++ "}"
  ++ nl ++ spaces 4 ++ "#" ++ map_id ++ " {"
  ++ nl ++ spaces 8 ++ "width: 80%;"
  ++ nl ++ spaces 8 ++ "height: 100vh;"
  ++ nl ++ spaces 8 ++ "flex-grow: 1;"
  ++ nl ++ spaces 8 ++ "position: relative;"
  ++ nl ++ spaces 4 ++ "}"
  ++ nl ++ spaces 4 ++ ".nav-pane {"
  ++ nl ++ spaces 8 ++ "width: 20%;"
  ++ nl ++ spaces 8 ++ "min-width: 250px;"
  ++ nl ++ spaces 8 ++ "height: 100vh;"
  ++ nl ++ spaces 8 ++ "background: #fff;"
  ++ nl ++ spaces 8 ++ "padding: 20px;"
  ++ nl ++ spaces 8 ++ "overflow-y: auto;"
  ++ nl ++ spaces 8 ++ "box-shadow: 2px 0 5px rgba(0,0,0,0.1);"
  ++ nl ++ spaces 8 ++ "z-index: 1000;"
  ++ nl ++ spaces 4 ++ "}"
  ++ nl ++ spaces 4 ++ ".bookmark-link {"
  ++ nl ++ spaces 8 ++ "display: block;"
  ++ nl ++ spaces 8 ++ "padding: 10px;"
  ++ nl ++ spaces 8 ++ "margin: 5px 0;"
  ++ nl ++ spaces 8 ++ "background: #f0f0f0;"
  ++ nl ++ spaces 8 ++ "border-radius: 4px;"
  ++ nl ++ spaces 8 ++ "cursor: pointer;"
  ++ nl ++ spaces 8 ++ "text-decoration: none;"
  ++ nl ++ spaces 8 ++ "color: #333;"
  ++ nl ++ spaces 4 ++ "}"
  ++ nl ++ spaces 4 ++ ".bookmark-link:hover {"
  ++ nl ++ spaces 8 ++ "background: #e0e0e0;"
  ++ nl ++ spaces 4 ++ "}"
  ++ nl ++ spaces 4 ++ ".modal-content {"
  ++ nl ++ spaces 8 ++ "padding: 20px;"
  ++ nl ++ spaces 8 ++ "background: white;"
  ++ nl ++ spaces 8 ++ "border-radius: 8px;"
  ++ nl ++ spaces 8 ++ "box-shadow: 0 2px 4px rgba(0,0,0,0.2);"
  ++ nl ++ spaces 4 ++ "}"
  ++ nl ++ spaces 4 ++ ".zoom-indicator {"
  ++ nl ++ spaces 8 ++ "position: absolute;"
  ++ nl ++ spaces 8 ++ "bottom: 10px;"
  ++ nl ++ spaces 8 ++ "left: 10px;"
  ++ nl ++ spaces 8 ++ "padding: 5px 10px;"
  ++ nl ++ spaces 8 ++ "background: rgba(255, 255, 255, 0.8);"
  ++ nl ++ spaces 8 ++ "border-radius: 4px;"
  ++ nl ++ spaces 8 ++ "font-weight: bold;"
  ++ nl ++ spaces 4 ++ "}"
  ++ nl ++ spaces 4 ++ "</style>"
  ++ nl ++ spaces 4.

(** What [create_map] hands to folium: the map arguments, the layers and
    their control, the features, the navigation index, the navigation
    pane, and the text of the element added to the root of the page. *)
Record Page : Type := {
  map_location : json * json;
  zoom_start : json;
  layers : list TileLayer;
  layer_control : bool;
  page : page_state;
  locations_js : list (nat * NavigationEntry);
  nav_links : list string;
  nav_html : string;
  root_html : string
}.

Definition create_map (bookmarks : list json) (center : json * json) (zoom : json)
  : result Page :=
  _ <- check (folium_location W center) ;;
  let m := {| features := []; stdout := [] |} in
  let map_name := get_name W in
  '(locations_js, m) <- collect_locations 0 bookmarks m center ;;
  let locations_js_str := json_dumps W (locations_dict locations_js) in
  let nav_js := nav_js map_name locations_js_str in
  links <- nav_link_list 0 bookmarks ;;
  let nav_html :=
    nl ++ spaces 4 ++ "<div class=" ++ dq ++ "nav-pane" ++ dq ++ ">"
    ++ nl ++ spaces 8 ++ "<h2>Bookmarks</h2>"
    ++ nl ++ spaces 8 ++ String.concat "" links
    ++ nl ++ spaces 4 ++ "</div>"
    ++ nl ++ spaces 4 in
  let custom_css := custom_css map_name in
  let root_html := custom_css ++ nav_html ++ zoom_indicator_html ++ nav_js in
  _ <- check (element_template W root_html) ;;
  Ok {| map_location := center; zoom_start := zoom; layers := tile_layers;
        layer_control := true; page := m; locations_js := locations_js;
        nav_links := links; nav_html := nav_html; root_html := root_html |}.

End Renderer.

Arguments Marker {num}.
Arguments PolyLine {num}.
Arguments Polygon {num}.

(** ** An instance to run the model: IEEE binary64 numbers

    Arithmetic is that of Python's [float].  Integers are taken below
    2^63.  [float_fmt2f] is the correctly rounded two-decimal rendering;
    [float_str] is [repr] of a float between 1e-4 and 1e16 in magnitude:
    the shortest decimal that reads back as the same binary64. *)

Definition float_of_Z (z : Z) : float :=
  let a := PrimFloat.of_uint63 (Uint63.of_Z (Z.abs z)) in
  if (z <? 0)%Z then PrimFloat.opp a else a.

Definition float_dec (m e : Z) : float :=
  if (0 <=? e)%Z then float_of_Z (m * 10 ^ e)
  else PrimFloat.div (float_of_Z m) (float_of_Z (10 ^ (- e))).

Definition Z_to_string (z : Z) : string := NilEmpty.string_of_int (Z.to_int z).

(** The integer nearest to [v * 2^e], ties to even. *)
Definition round_half_even (v e : Z) : Z :=
  if (0 <=? e)%Z then (v * 2 ^ e)%Z
  else
    let d := (2 ^ (- e))%Z in
    let q := (v / d)%Z in
    let r := (v mod d)%Z in
    if (2 * r <? d)%Z then q
    else if (d <? 2 * r)%Z then (q + 1)%Z
    else if Z.even q then q else (q + 1)%Z.

Definition two_digits (z : Z) : string :=
  if (z <? 10)%Z then "0" ++ Z_to_string z else Z_to_string z.

Definition float_fmt2f (x : float) : string :=
  match Prim2SF x with
  | S754_nan => "nan"
  | S754_infinity s => if s then "-inf" else "inf"
  | S754_zero s => if s then "-0.00" else "0.00"
  | S754_finite s m e =>
      let n := round_half_even (Z.pos m * 100) e in
      (if s then "-" else "") ++ Z_to_string (n / 100) ++ "."
      ++ two_digits (n mod 100)
  end.

(** The least number [k] of decimals, up to [k + fuel], with which [x]
    reads back as the same binary64, and [x] in units of [10^-k]. *)
Fixpoint shortest_decimals (fuel : nat) (k : Z) (m : positive) (e : Z) (x : float)
  : Z * Z :=
  let n := round_half_even (Z.pos m * 10 ^ k) e in
  match fuel with
  | O => (n, k)
  | S fuel' =>
      if PrimFloat.eqb (float_dec n (- k)) x then (n, k)
      else shortest_decimals fuel' (k + 1) m e x
  end.

Fixpoint zeros (n : nat) : string :=
  match n with
  | O => ""
  | S n' => String "0" (zeros n')
  end.

(** The digits of a finite non-zero [x]: the integer part and, when
    there is one, the fractional part of the shortest decimal that reads
    back as [x]. *)
Definition shortest_digits (m : positive) (e : Z) (x : float) : string * string :=
  let '(n, k) := shortest_decimals 17 0 m e (PrimFloat.abs x) in
  let frac := Z_to_string (n mod 10 ^ k) in
  (Z_to_string (n / 10 ^ k),
   if (k =? 0)%Z then "" else zeros (Z.to_nat k - String.length frac) ++ frac).

Definition float_str (x : float) : string :=
  match Prim2SF x with
  | S754_nan => "nan"
  | S754_infinity s => if s then "-inf" else "inf"
  | S754_zero s => if s then "-0.0" else "0.0"
  | S754_finite s m e =>
      let '(int, frac) := shortest_digits m e x in
      (if s then "-" else "") ++ int ++ "."
      ++ (if String.eqb frac "" then "0" else frac)
  end.

#[global] Instance binary64 : PyNum float := {
  num_of_nat n := float_of_Z (Z.of_nat n);
  num_dec := float_dec;
  num_add := PrimFloat.add;
  num_truediv := PrimFloat.div;
  num_is_zero x := PrimFloat.eqb x 0%float;
  num_str := float_str;
  num_fmt2f := float_fmt2f
}.

(** ** Worlds to run the model

    [online] answers every request with a PNG signature, [offline] fails
    every request the way [requests] does without a network, [not_found]
    answers 404.  All decode percent escapes to bytes (which is what
    [unquote] gives when the bytes are valid UTF-8), accept every
    bracketed host and every netloc, measure every line as 3218.68 m and
    every polygon as 7770000 square metres, and let folium accept the
    non-empty lists of numeric locations.  All give the map one fixed
    name, write JSON as [json.dumps] does on numbers and printable ASCII
    strings, and let [folium.Element] compile the texts without a Jinja2
    delimiter. *)

Definition hex_value (c : ascii) : option N :=
  let n := N_of_ascii c in
  if is_digit c then Some (n - 48)%N
  else if ((97 <=? n) && (n <=? 102))%N then Some (n - 87)%N
  else if ((65 <=? n) && (n <=? 70))%N then Some (n - 55)%N
  else None.

Fixpoint percent_decode (s : string) : string :=
  match s with
  | String "%" (String h (String l rest) as tl1) =>
      match hex_value h, hex_value l with
      | Some a, Some b => String (ascii_of_N (16 * a + b)) (percent_decode rest)
      | _, _ => String "%" (percent_decode tl1)
      end
  | String c rest => String c (percent_decode rest)
  | EmptyString => EmptyString
  end.

(** folium accepts a coordinate that [float] converts and that is not
    NaN; here a number or a bool. *)
Definition accept_coordinate (v : json float) : bool :=
  match v with
  | JNum x => PrimFloat.eqb x x
  | JBool _ => true
  | _ => false
  end.

Definition accept_location (location : json float * json float) : option exn :=
  if accept_coordinate (fst location) && accept_coordinate (snd location)
  then None else Some ValueError.

Definition accept_locations (locations : list (json float * json float)) : option exn :=
  match locations with
  | [] => Some ValueError
  | _ => if forallb (fun l => match accept_location l with None => true | Some _ => false end)
                    locations
         then None else Some ValueError
  end.

Definition png_signature : list byte := [x89; x50; x4e; x47]%byte.

Definition quote_repr (s : string) : string := "'" ++ s ++ "'".

(** [json.dumps] on printable ASCII text: a quote and a backslash are
    escaped. *)
Fixpoint json_escape (s : string) : string :=
  match s with
  | EmptyString => EmptyString
  | String c s' =>
      (if Ascii.eqb c "034" then String "\" dq
       else if Ascii.eqb c "\" then "\\"
       else String c EmptyString) ++ json_escape s'
  end.

(** [json.dumps] of a number between 1e-4 and 1e16 in magnitude: the
    shortest decimal that reads back as the same binary64.  An integral
    value is written as an int: binary64 does not tell the int [13] of a
    JSON file from the float [13.0]. *)
Definition float_json (x : float) : string :=
  match Prim2SF x with
  | S754_nan => "NaN"
  | S754_infinity s => if s then "-Infinity" else "Infinity"
  | S754_zero s => if s then "-0.0" else "0"
  | S754_finite s m e =>
      let '(int, frac) := shortest_digits m e x in
      (if s then "-" else "") ++ int
      ++ (if String.eqb frac "" then "" else "." ++ frac)
  end.

Fixpoint sample_json_dumps (v : json float) : string :=
  match v with
  | JNull => "null"
  | JBool true => "true"
  | JBool false => "false"
  | JNum n => float_json n
  | JStr s => dq ++ json_escape s ++ dq
  | JArr l => "[" ++ join ", " (map sample_json_dumps l) ++ "]"
  | JObj kv =>
      "{" ++ join ", "
               (map (fun p => dq ++ json_escape (fst p) ++ dq ++ ": "
                              ++ sample_json_dumps (snd p)) kv)
      ++ "}"
  end.

(** Jinja2 compiles a text that holds none of its three opening
    delimiters: all of it is data.  The sample worlds refuse every other
    text; Jinja2 refuses those whose blocks are not well formed. *)
Definition compile_template (text : string) : option exn :=
  if contains "{{" text || contains "{%" text || contains "{#" text
  then Some TemplateSyntaxError
  else None.

Definition sample_map_name : string := "map_5f3a1c0e9b7d4e2a8c6f0b1d2e3f4a5b".

Definition online : World float := {|
  requests_get _ :=
    Ok {| status_code := 200;
          headers := [("content-type", "image/png")];
          content := png_signature |};
  unquote_escapes := percent_decode;
  valid_bracketed_host _ := true;
  netloc_nfkc_ok _ := true;
  projected_length _ := Ok (float_dec 321868 (-2));
  projected_area _ := Ok (float_dec 777 4);
  folium_location := accept_location;
  folium_locations := accept_locations;
  repr_str := quote_repr;
  get_name := sample_map_name;
  json_dumps := sample_json_dumps;
  element_template := compile_template
|}.

Definition offline : World float := {|
  requests_get _ := Raise (RequestException "ConnectionError");
  unquote_escapes := percent_decode;
  valid_bracketed_host _ := true;
  netloc_nfkc_ok _ := true;
  projected_length _ := Ok (float_dec 321868 (-2));
  projected_area _ := Ok (float_dec 777 4);
  folium_location := accept_location;
  folium_locations := accept_locations;
  repr_str := quote_repr;
  get_name := sample_map_name;
  json_dumps := sample_json_dumps;
  element_template := compile_template
|}.

(** A world whose server answers 404 to every request. *)
Definition not_found : World float := {|
  requests_get _ :=
    Ok {| status_code := 404; headers := [("Content-Type", "text/html")];
          content := [] |};
  unquote_escapes := percent_decode;
  valid_bracketed_host _ := true;
  netloc_nfkc_ok _ := true;
  projected_length _ := Ok (float_dec 321868 (-2));
  projected_area _ := Ok (float_dec 777 4);
  folium_location := accept_location;
  folium_locations := accept_locations;
  repr_str := quote_repr;
  get_name := sample_map_name;
  json_dumps := sample_json_dumps;
  element_template := compile_template
|}.

Definition sample_center : json float * json float :=
  (JNum (float_dec 3954316 (-5)), JNum (float_dec (-11038948) (-5))).

(** ** What the specification asks of the popup text: [html.escape] *)

Fixpoint html_escape (s : string) : string :=
  match s with
  | EmptyString => EmptyString
  | String c s' =>
      (if Ascii.eqb c "&" then "&amp;"
       else if Ascii.eqb c "<" then "&lt;"
       else if Ascii.eqb c ">" then "&gt;"
       else if Ascii.eqb c "034" then "&quot;"
       else if Ascii.eqb c "'" then "&#x27;"
       else String c EmptyString) ++ html_escape s'
  end.

(** The text popup around a heading [h] and a paragraph [p]. *)
Definition text_popup (h p : string) : string :=
  nl ++ spaces 12 ++ "<div class=" ++ dq ++ "modal-content" ++ dq ++ ">"
  ++ nl ++ spaces 16 ++ "<h3>" ++ h ++ "</h3>"
  ++ nl ++ spaces 16 ++ "<p>" ++ p ++ "</p>"
  ++ nl ++ spaces 12 ++ "</div>"
  ++ nl ++ spaces 8.

(** The characters of a YouTube video id. *)
Definition id_char (c : ascii) : bool :=
  is_alpha c || is_digit c || Ascii.eqb c "-" || Ascii.eqb c "_".

Definition is_video_id (s : string) : bool :=
  negb (String.eqb s "") && forallb_str id_char s.

Section Readings.

Context {num : Type} {N : PyNum num}.

(** [bookmark.get('geometry', {}).get('type')] *)
Definition geometry_type (bookmark : json num) : result (json num) :=
  geometry <- py_get bookmark "geometry" (JObj []) ;;
  py_get geometry "type" JNull.

Definition supported_geometry (t : json num) : bool :=
  py_eq_str t "Point" || py_eq_str t "LineString" || py_eq_str t "Polygon".

(** The arithmetic mean of a list of numbers: their sum, added from the
    left starting at 0, over their count. *)
Definition arith_mean (l : list num) : num :=
  num_truediv (fold_left num_add l (num_of_nat 0)) (num_of_nat (length l)).

(** A ring of (lon, lat) vertices as [json.load] delivers it. *)
Definition ring_json (pts : list (num * num)) : json num :=
  JArr (map (fun p => JArr [JNum (fst p); JNum (snd p)]) pts).

Definition empty_page : page_state (num := num) := {| features := []; stdout := [] |}.

(** The bookmark is rendered on a fresh map. *)
Definition renders (W : World num) (center : json num * json num) (b : json num) : Prop :=
  exists e m', add_bookmark_to_map W b empty_page center = Ok (e, m').

(** [bookmark["title"]] is defined. *)
Definition titled (b : json num) : Prop :=
  exists t, py_getitem b "title" = Ok t.



End Readings.

(** ** Sample inputs *)

Definition sample_text_content : json float :=
  JObj [("type", JStr "text"); ("title", JStr "T"); ("text", JStr "hello")].

Definition markup_text_content : json float :=
  JObj [("type", JStr "text"); ("title", JStr "<b>T</b>"); ("text", JStr "R&D")].

Definition circle_items : list (string * json float) :=
  [("title", JStr "Round lake");
   ("geometry", JObj [("type", JStr "Circle");
                      ("coordinates", JArr [JNum (float_dec (-1105) (-1));
                                            JNum (float_dec 395 (-1))])]);
   ("zoom", JNum (float_of_Z 9));
   ("tile_layer", JStr "Esri Satellite")].

Definition photo_content : json float :=
  JObj [("type", JStr "image"); ("title", JStr "Summit");
        ("url", JStr "https://example.org/summit.png")].

Definition circle_photo_items : list (string * json float) :=
  [("title", JStr "Round lake");
   ("geometry", JObj [("type", JStr "Circle");
                      ("coordinates", JArr [JNum (float_dec (-1105) (-1));
                                            JNum (float_dec 395 (-1))])]);
   ("content", photo_content)].

Definition point_geometry : json float :=
  JObj [("type", JStr "Point");
        ("coordinates", JArr [JNum (float_dec (-1105) (-1)); JNum (float_dec 395 (-1))])].

Definition point_items : list (string * json float) :=
  [("title", JStr "Trailhead"); ("geometry", point_geometry)].


Definition point_items_null_content : list (string * json float) :=
  [("title", JStr "Trailhead"); ("geometry", point_geometry); ("content", JNull)].

Definition line_coordinates : json float :=
  JArr [JArr [JNum (float_dec (-1105) (-1)); JNum (float_dec 395 (-1))];
        JArr [JNum (float_dec (-1100) (-1)); JNum (float_dec 400 (-1))];
        JArr [JNum (float_dec (-1095) (-1)); JNum (float_dec 395 (-1))]].

Definition line_items : list (string * json float) :=
  [("title", JStr "Ridge walk");
   ("geometry", JObj [("type", JStr "LineString"); ("coordinates", line_coordinates)]);
   ("content", sample_text_content)].

Definition bare_line_items : list (string * json float) :=
  [("title", JStr "Ridge walk");
   ("geometry", JObj [("type", JStr "LineString"); ("coordinates", line_coordinates)])].

Definition triangle : list (float * float) :=
  [(float_of_Z 0, float_of_Z 0); (float_of_Z 4, float_of_Z 0);
   (float_of_Z 4, float_of_Z 3); (float_of_Z 0, float_of_Z 0)].

Definition hole : json float :=
  ring_json [(float_of_Z 3, float_of_Z 1); (float_of_Z 3, float_of_Z 2);
             (float_of_Z 2, float_of_Z 1); (float_of_Z 3, float_of_Z 1)].

Definition polygon_items : list (string * json float) :=
  [("title", JStr "Meadow");
   ("geometry", JObj [("type", JStr "Polygon");
                      ("coordinates", JArr [ring_json triangle; hole])])].

Definition line_pairs : list (json float * json float) :=
  [(JNum (float_dec (-1105) (-1)), JNum (float_dec 395 (-1)));
   (JNum (float_dec (-1100) (-1)), JNum (float_dec 400 (-1)));
   (JNum (float_dec (-1095) (-1)), JNum (float_dec 395 (-1)))].

(** A bookmark whose title opens a Jinja2 expression and leaves it open. *)
Definition braces_point_items : list (string * json float) :=
  [("title", JStr "{{"); ("geometry", point_geometry)].

Definition sample_bookmarks : list (json float) :=
  [JObj point_items; JObj line_items; JObj polygon_items].

(** ** Readings used by the further properties *)

(** The video popup around a title, the source URL and the image source. *)
Definition video_popup (title url src : string) : string :=
  nl ++ spaces 12 ++ "<div class=" ++ dq ++ "modal-content" ++ dq ++ ">"
  ++ nl ++ spaces 16 ++ "<h3>" ++ title ++ "</h3>"
  ++ nl ++ spaces 16 ++ "<a href=" ++ dq ++ url ++ dq
        ++ " target=" ++ dq ++ "_blank" ++ dq ++ ">"
  ++ nl ++ spaces 20 ++ "<img src=" ++ dq ++ src ++ dq
        ++ " alt=" ++ dq ++ title ++ dq
        ++ " style=" ++ dq ++ "max-width:100%;" ++ dq ++ ">"
  ++ nl ++ spaces 16 ++ "</a>"
  ++ nl ++ spaces 16 ++ "<p>Click the image to watch the video.</p>"
  ++ nl ++ spaces 12 ++ "</div>"
  ++ nl ++ spaces 8.

(** The image popup around a title and the image source. *)
Definition image_popup (title src : string) : string :=
  nl ++ spaces 12 ++ "<div class=" ++ dq ++ "modal-content" ++ dq ++ ">"
  ++ nl ++ spaces 16 ++ "<h3>" ++ title ++ "</h3>"
  ++ nl ++ spaces 16 ++ "<img src=" ++ dq ++ src ++ dq
        ++ " alt=" ++ dq ++ title ++ dq
        ++ " style=" ++ dq ++ "max-width:100%;" ++ dq ++ ">"
  ++ nl ++ spaces 12 ++ "</div>"
  ++ nl ++ spaces 8.

(** The address of the thumbnail of a video. *)
Definition thumbnail_url (id : string) : string :=
  "https://img.youtube.com/vi/" ++ id ++ "/hqdefault.jpg".

(** The data URI of a response, or the empty string when its status is
    not 200. *)
Definition data_uri_of (response : Response) : string :=
  if (status_code response =? 200)%Z
  then "data:" ++ headers_get (headers response) "Content-Type" ""
       ++ ";base64," ++ b64encode (content response)
  else "".

(** The three URL shapes of a video id, under one scheme and host. *)
Definition video_urls (sch host id : string) : list string :=
  [sch ++ "://youtu.be/" ++ id;
   sch ++ "://" ++ host ++ "/watch?v=" ++ id;
   sch ++ "://" ++ host ++ "/embed/" ++ id].

(** Links to a video as they are shared: with a start time in the query
    or the fragment, with further parameters around [v], and with the host
    in capitals. *)
Definition decorated_video_urls (id t : string) : list string :=
  ["https://youtu.be/" ++ id ++ "?t=" ++ t;
   "https://youtu.be/" ++ id ++ "#t=" ++ t;
   "https://www.youtube.com/watch?v=" ++ id ++ "&t=" ++ t;
   "https://www.youtube.com/watch?t=" ++ t ++ "&v=" ++ id;
   "https://www.youtube.com/watch?v=" ++ id ++ "#t=" ++ t;
   "https://www.youtube.com/embed/" ++ id ++ "?start=" ++ t;
   "https://WWW.YouTube.com/watch?v=" ++ id].

(** Links to a video outside the three shapes: without a scheme, on
    another host, under another path, or with the path or the parameter in
    capitals. *)
Definition unrecognised_video_urls (id : string) : list string :=
  ["youtu.be/" ++ id;
   "www.youtube.com/watch?v=" ++ id;
   "https://m.youtube.com/watch?v=" ++ id;
   "https://www.youtube.com/shorts/" ++ id;
   "https://www.youtube.com/live/" ++ id;
   "https://www.youtube-nocookie.com/embed/" ++ id;
   "https://www.youtube.com/Watch?v=" ++ id;
   "https://www.youtube.com/watch?V=" ++ id].

Definition is_youtube_host (p : ParseResult) : bool :=
  match hostname p with
  | Some h => string_mem h ["youtu.be"; "www.youtube.com"; "youtube.com"]
  | None => false
  end.

Section FurtherReadings.

Context {num : Type} {N : PyNum num}.

(** [bookmark.get('geometry', {}).get('coordinates', [])] *)
Definition geometry_coordinates (bookmark : json num) : result (json num) :=
  geometry <- py_get bookmark "geometry" (JObj []) ;;
  py_get geometry "coordinates" (JArr []).

(** The popup of a measured feature: the content followed by the
    measurement, or the minimal frame under the title. *)
Definition measured_popup (content_html title measurement : string) : string :=
  if String.eqb content_html ""
  then "<div class='modal-content'><h3>" ++ title ++ "</h3><p>"
       ++ measurement ++ "</p></div>"
  else content_html ++ "<p>" ++ measurement ++ "</p>".

(** [create_custom_icon(content.get('type', 'info-sign'))] *)
Definition icon_of_content (content : json num) : result Icon :=
  icon_type <- py_get content "type" (JStr "info-sign") ;;
  create_custom_icon icon_type.

(** The bookmark has one of the three geometry types. *)
Definition is_supported (b : json num) : bool :=
  match geometry_type b with
  | Ok t => supported_geometry t
  | Raise _ => false
  end.

(** The icon names of [icon_map]. *)
Definition icon_names : list string :=
  ["video-camera"; "camera"; "align-left"; "info-sign"].

(** The line printed for a bookmark of an unsupported geometry type. *)
Definition unsupported_line (W : World num) (b : json num) : string :=
  match geometry_type b with
  | Ok t => "Unsupported geometry type: " ++ py_str W t
  | Raise _ => ""
  end.

(** The exception of the content builder, or [x] when the content is
    built: what a call raises that fails at [x] after the content. *)
Definition raised_after_content (W : World num) (bm : list (string * json num))
  (x : exn) : exn :=
  match create_bookmark_content W (dict_get bm "content" (JObj [])) with
  | Ok _ => x
  | Raise x' => x'
  end.

Definition is_media_type (t : json num) : bool :=
  py_eq_str t "video" || py_eq_str t "image".

Definition is_dict (v : json num) : bool :=
  match v with
  | JObj _ => true
  | _ => false
  end.

(** Two runs have the same outcome: the same entry, or the same
    exception. *)
Definition same_outcome {S : Type}
  (r1 r2 : result (NavigationEntry (num := num) * S)) : Prop :=
  match r1, r2 with
  | Ok (e1, _), Ok (e2, _) => e1 = e2
  | Raise x1, Raise x2 => x1 = x2
  | _, _ => False
  end.

End FurtherReadings.

(** *** Further sample inputs *)

Definition video_content : json float :=
  JObj [("type", JStr "video"); ("title", JStr "Flyover");
        ("url", JStr "https://youtu.be/abc123")].

Definition vimeo_content : json float :=
  JObj [("type", JStr "video"); ("title", JStr "Flyover");
        ("url", JStr "https://vimeo.com/76979871")].

Definition audio_items : list (string * json float) :=
  [("type", JStr "audio"); ("url", JStr "https://example.org/wind.ogg")].

Definition text_point_items : list (string * json float) :=
  [("title", JStr "Trailhead"); ("geometry", point_geometry);
   ("content", sample_text_content); ("zoom", JNum (float_of_Z 15))].

Definition altitude_point_items : list (string * json float) :=
  [("title", JStr "Summit");
   ("geometry", JObj [("type", JStr "Point");
                      ("coordinates", JArr [JNum (float_dec (-1105) (-1));
                                            JNum (float_dec 395 (-1));
                                            JNum (float_of_Z 3100)])])].

Definition empty_polygon_items : list (string * json float) :=
  [("title", JStr "Meadow"); ("geometry", JObj [("type", JStr "Polygon")])].

Definition untitled_point_items : list (string * json float) :=
  [("geometry", point_geometry)].


Definition altitude_vertex : list (json float) :=
  [JNum (float_dec (-1100) (-1)); JNum (float_dec 400 (-1)); JNum (float_of_Z 3100)].

Definition altitude_line : list (json float) :=
  [JArr [JNum (float_dec (-1105) (-1)); JNum (float_dec 395 (-1))];
   JArr altitude_vertex].

Definition altitude_line_items : list (string * json float) :=
  [("title", JStr "Ridge walk");
   ("geometry", JObj [("type", JStr "LineString"); ("coordinates", JArr altitude_line)])].

Definition null_style_point_items : list (string * json float) :=
  ("style", JNull) :: point_items.

(** * Properties *)

(** ** base64 on the test vectors of RFC 4648, section 10 *)

Example b64encode_rfc4648 :
  map (fun s => b64encode (bytes_of_string s))
      [""; "f"; "fo"; "foo"; "foob"; "fooba"; "foobar"]
  = [""; "Zg=="; "Zm8="; "Zm9v"; "Zm9vYg=="; "Zm9vYmE="; "Zm9vYmFy"].
Proof. reflexivity. Qed.

Example b64encode_binary :
  b64encode [xfb; xef; xbe; xff; xff]%byte = "++++//8="
  /\ b64encode [x89; x50; x4e; x47; x0d; x0a; x1a; x0a]%byte = "iVBORw0KGgo=".
Proof. split; reflexivity. Qed.

(** ** base64 decodes to what was encoded *)

Lemma testbit_high : forall x k i, (x < 2 ^ k)%N -> (k <= i)%N -> N.testbit x i = false.
Proof.
  intros x k i Hx Hi. destruct (N.eq_dec x 0) as [-> | Hnz].
  - apply N.bits_0.
  - apply N.bits_above_log2.
    apply N.lt_le_trans with k; [ | exact Hi ].
    apply N.log2_lt_pow2; [ lia | exact Hx ].
Qed.

Lemma testbit_mask : forall w j, N.testbit (N.ones w) j = (j <? w)%N.
Proof.
  intros w j. destruct (N.ltb_spec j w) as [H | H].
  - apply N.ones_spec_low. exact H.
  - apply N.ones_spec_high. exact H.
Qed.

(** Bit [i] of the field of width [w] at offset [s], put back in place. *)
Lemma testbit_field :
  forall n s w i,
    N.testbit (N.shiftl (N.land (N.shiftr n s) (N.ones w)) s) i
    = N.testbit n i && (s <=? i)%N && (i <? s + w)%N.
Proof.
  intros n s w i. destruct (N.leb_spec s i) as [H | H].
  - rewrite N.shiftl_spec_high' by exact H.
    rewrite N.land_spec, N.shiftr_spec', testbit_mask.
    replace (i - s + s)%N with i by lia.
    rewrite andb_true_r. f_equal.
    destruct (N.ltb_spec (i - s) w), (N.ltb_spec i (s + w)); try reflexivity; lia.
  - rewrite N.shiftl_spec_low by exact H. rewrite andb_false_r. reflexivity.
Qed.

Lemma sextets_quantum :
  forall n, (forall i, (24 <= i)%N -> N.testbit n i = false) ->
    quantum (sext n 3) (sext n 2) (sext n 1) (sext n 0) = n.
Proof.
  intros n Hn. apply N.bits_inj. intros i. unfold quantum, sext.
  change 63%N with (N.ones 6).
  rewrite !N.lor_spec.
  change (6 * 3)%N with 18%N. change (6 * 2)%N with 12%N.
  change (6 * 1)%N with 6%N. change (6 * 0)%N with 0%N.
  rewrite <- (N.shiftl_0_r (N.land (N.shiftr n 0) (N.ones 6))).
  rewrite !testbit_field.
  destruct (N.ltb_spec i 24) as [Hi | Hi].
  - destruct (N.testbit n i); [ | reflexivity ]. cbn [andb].
    destruct (N.leb_spec 18 i), (N.ltb_spec i (18 + 6)),
             (N.leb_spec 12 i), (N.ltb_spec i (12 + 6)),
             (N.leb_spec 6 i), (N.ltb_spec i (6 + 6)),
             (N.leb_spec 0 i), (N.ltb_spec i (0 + 6)); try reflexivity; lia.
  - rewrite (Hn i Hi). reflexivity.
Qed.

Lemma testbit_group :
  forall a b c k,
    N.testbit (group a b c) k
    = ((16 <=? k)%N && N.testbit a (k - 16))
      || ((8 <=? k)%N && N.testbit b (k - 8))
      || N.testbit c k.
Proof.
  intros a b c k. unfold group. rewrite !N.lor_spec. f_equal. f_equal.
  - destruct (N.leb_spec 16 k) as [H | H].
    + apply N.shiftl_spec_high'. exact H.
    + apply N.shiftl_spec_low. exact H.
  - destruct (N.leb_spec 8 k) as [H | H].
    + apply N.shiftl_spec_high'. exact H.
    + apply N.shiftl_spec_low. exact H.
Qed.

Section Group.

Variables a b c : N.
Hypothesis Ha : (a < 2 ^ 8)%N.
Hypothesis Hb : (b < 2 ^ 8)%N.
Hypothesis Hc : (c < 2 ^ 8)%N.

Lemma group_high : forall i, (24 <= i)%N -> N.testbit (group a b c) i = false.
Proof.
  intros i Hi. rewrite testbit_group.
  rewrite (testbit_high a 8 (i - 16) Ha) by lia.
  rewrite (testbit_high b 8 (i - 8) Hb) by lia.
  rewrite (testbit_high c 8 i Hc) by lia.
  rewrite !andb_false_r. reflexivity.
Qed.

Lemma octet_bits :
  forall s j,
    N.testbit (N.land (N.shiftr (group a b c) s) 255) j
    = N.testbit (group a b c) (j + s) && (j <? 8)%N.
Proof.
  intros s j. change 255%N with (N.ones 8).
  rewrite N.land_spec, N.shiftr_spec', testbit_mask. reflexivity.
Qed.

Lemma group_octet2 : N.land (N.shiftr (group a b c) 16) 255 = a.
Proof.
  apply N.bits_inj. intros j. rewrite octet_bits, testbit_group.
  replace (j + 16 - 16)%N with j by lia.
  rewrite (testbit_high b 8 (j + 16 - 8) Hb) by lia.
  rewrite (testbit_high c 8 (j + 16) Hc) by lia.
  replace (16 <=? j + 16)%N with true by (symmetry; apply N.leb_le; lia).
  rewrite andb_false_r, !orb_false_r. cbn [andb].
  destruct (N.ltb_spec j 8) as [H | H]; [ apply andb_true_r | ].
  rewrite (testbit_high a 8 j Ha H). reflexivity.
Qed.

Lemma group_octet1 : N.land (N.shiftr (group a b c) 8) 255 = b.
Proof.
  apply N.bits_inj. intros j. rewrite octet_bits, testbit_group.
  replace (j + 8 - 8)%N with j by lia.
  rewrite (testbit_high c 8 (j + 8) Hc) by lia.
  replace (8 <=? j + 8)%N with true by (symmetry; apply N.leb_le; lia).
  rewrite orb_false_r. cbn [andb].
  destruct (N.ltb_spec j 8) as [H | H].
  - replace (16 <=? j + 8)%N with false by (symmetry; apply N.leb_gt; lia).
    cbn [andb orb]. apply andb_true_r.
  - rewrite (testbit_high b 8 j Hb H). apply andb_false_r.
Qed.

Lemma group_octet0 : N.land (N.shiftr (group a b c) 0) 255 = c.
Proof.
  apply N.bits_inj. intros j. rewrite octet_bits, testbit_group.
  rewrite N.add_0_r.
  destruct (N.ltb_spec j 8) as [H | H].
  - replace (16 <=? j)%N with false by (symmetry; apply N.leb_gt; lia).
    replace (8 <=? j)%N with false by (symmetry; apply N.leb_gt; lia).
    cbn [andb orb]. apply andb_true_r.
  - rewrite (testbit_high c 8 j Hc H). apply andb_false_r.
Qed.

End Group.

Lemma sext_lt : forall n k, (sext n k < 64)%N.
Proof.
  intros n k. unfold sext. change 63%N with (N.ones 6).
  rewrite N.land_ones. apply N.mod_lt. discriminate.
Qed.

Lemma sext_zero :
  forall n k, (forall i, (i < 6 * k + 6)%N -> N.testbit n i = false) -> sext n k = 0%N.
Proof.
  intros n k H. apply N.bits_inj. intros j. unfold sext.
  change 63%N with (N.ones 6).
  rewrite N.land_spec, N.shiftr_spec', testbit_mask, N.bits_0.
  destruct (N.ltb_spec j 6) as [Hj | Hj]; [ | apply andb_false_r ].
  rewrite H by lia. reflexivity.
Qed.

Lemma check_below (P : N -> bool) (m : nat) :
  forallb (fun k => P (N.of_nat k)) (seq 0 m) = true ->
  forall n, (n < N.of_nat m)%N -> P n = true.
Proof.
  intros H n Hn. rewrite forallb_forall in H.
  specialize (H (N.to_nat n)). rewrite N2Nat.id in H. apply H.
  apply in_seq. lia.
Qed.

Lemma b64_index_char : forall i, (i < 64)%N -> b64_index (b64_char i) = Some i.
Proof.
  intros i Hi.
  pose proof (check_below
                (fun i => match b64_index (b64_char i) with
                          | Some j => N.eqb j i
                          | None => false
                          end) 64 eq_refl i Hi) as H.
  cbv beta in H. destruct (b64_index (b64_char i)) as [j | ]; [ | discriminate H ].
  apply N.eqb_eq in H. congruence.
Qed.

Lemma to_N_lt : forall x : byte, (Byte.to_N x < 2 ^ 8)%N.
Proof. intros x. pose proof (Byte.to_N_bounded x). change (2 ^ 8)%N with 256%N. lia. Qed.

Lemma octet_group :
  forall x y z : byte,
    let m := group (Byte.to_N x) (Byte.to_N y) (Byte.to_N z) in
    octet m 2 = x /\ octet m 1 = y /\ octet m 0 = z.
Proof.
  intros x y z m. unfold octet, m.
  change (8 * 2)%N with 16%N. change (8 * 1)%N with 8%N. change (8 * 0)%N with 0%N.
  rewrite group_octet2, group_octet1, group_octet0 by apply to_N_lt.
  rewrite !Byte.of_to_N. repeat split.
Qed.

Lemma list_ind_by3 :
  forall (A : Type) (P : list A -> Prop),
    P [] -> (forall x, P [x]) -> (forall x y, P [x; y]) ->
    (forall x y z l, P l -> P (x :: y :: z :: l)) ->
    forall l, P l.
Proof.
  intros A P H0 H1 H2 H3.
  assert (H : forall l, P l /\ (forall x, P (x :: l)) /\ (forall x y, P (x :: y :: l))).
  { induction l as [ | z l [IH0 [IH1 IH2]]].
    - repeat split; auto.
    - repeat split; auto. }
  intros l. apply H.
Qed.

Lemma group_low :
  forall a b i, (i < 8)%N -> N.testbit (group a b 0) i = false.
Proof.
  intros a b i Hi. rewrite testbit_group, N.bits_0.
  replace (16 <=? i)%N with false by (symmetry; apply N.leb_gt; lia).
  replace (8 <=? i)%N with false by (symmetry; apply N.leb_gt; lia).
  reflexivity.
Qed.

Lemma group_lower :
  forall a i, (i < 16)%N -> N.testbit (group a 0 0) i = false.
Proof.
  intros a i Hi. rewrite testbit_group, !N.bits_0.
  replace (16 <=? i)%N with false by (symmetry; apply N.leb_gt; lia).
  rewrite andb_false_r. reflexivity.
Qed.

Lemma zero_lt : (0 < 2 ^ 8)%N.
Proof. reflexivity. Qed.

(** Encoding loses nothing: the RFC 4648 decoder gives the bytes back. *)
Theorem b64decode_b64encode : forall bs, b64decode (b64encode bs) = Some bs.
Proof.
  induction bs as [ | x | x y | x y z l IH] using list_ind_by3.
  - reflexivity.
  - cbn [b64encode b64decode]. unfold sextet.
    set (n := group (Byte.to_N x) 0 0).
    fold (sext n 3). fold (sext n 2).
    rewrite !b64_index_char by apply sext_lt.
    change (b64_index "=") with (@None N). cbn [Ascii.eqb Bool.eqb andb String.eqb].
    replace (quantum (sext n 3) (sext n 2) 0 0)
      with (quantum (sext n 3) (sext n 2) (sext n 1) (sext n 0))
      by (rewrite (sext_zero n 1), (sext_zero n 0);
          [ reflexivity | | ]; intros i Hi; apply group_lower; lia).
    rewrite sextets_quantum
      by (apply group_high; [ apply to_N_lt | apply zero_lt | apply zero_lt ]).
    unfold octet, n. change (8 * 2)%N with 16%N.
    rewrite group_octet2 by (apply to_N_lt || apply zero_lt).
    rewrite Byte.of_to_N. reflexivity.
  - cbn [b64encode b64decode]. unfold sextet.
    set (n := group (Byte.to_N x) (Byte.to_N y) 0).
    fold (sext n 3). fold (sext n 2). fold (sext n 1).
    rewrite !b64_index_char by apply sext_lt.
    change (b64_index "=") with (@None N). cbn [Ascii.eqb Bool.eqb andb String.eqb].
    replace (quantum (sext n 3) (sext n 2) (sext n 1) 0)
      with (quantum (sext n 3) (sext n 2) (sext n 1) (sext n 0))
      by (rewrite (sext_zero n 0);
          [ reflexivity | ]; intros i Hi; apply group_low; lia).
    rewrite sextets_quantum
      by (apply group_high; [ apply to_N_lt | apply to_N_lt | apply zero_lt ]).
    unfold octet, n. change (8 * 2)%N with 16%N. change (8 * 1)%N with 8%N.
    rewrite group_octet2, group_octet1 by (apply to_N_lt || apply zero_lt).
    rewrite !Byte.of_to_N. reflexivity.
  - cbn [b64encode b64decode]. unfold sextet.
    set (n := group (Byte.to_N x) (Byte.to_N y) (Byte.to_N z)).
    fold (sext n 3). fold (sext n 2). fold (sext n 1). fold (sext n 0).
    rewrite !b64_index_char by apply sext_lt.
    rewrite IH.
    rewrite sextets_quantum by (apply group_high; apply to_N_lt).
    destruct (octet_group x y z) as [H2 [H1 H0]]. fold n in H2, H1, H0.
    rewrite H2, H1, H0. reflexivity.
Qed.

(** ** Media resolver *)

Section MediaResolver.

Context {num : Type} {N : PyNum num} (W : World num).

(** C1, as the code has it: a response with status 200 gives the data URI
    of its body under its declared content type (empty when the header is
    missing), the payload being base64 text that decodes to the body; a
    response with any other status gives the empty string; and a
    transport error of [requests.get] is not caught: it is raised to the
    caller unchanged. *)
Theorem fetch_image_data_uri_outcomes :
  forall url : json num,
    match requests_get W url with
    | Ok response =>
        if (status_code response =? 200)%Z
        then fetch_image_data_uri W url
             = Ok ("data:" ++ headers_get (headers response) "Content-Type" ""
                   ++ ";base64," ++ b64encode (content response))
             /\ b64decode (b64encode (content response)) = Some (content response)
        else fetch_image_data_uri W url = Ok ""
    | Raise e => fetch_image_data_uri W url = Raise e
    end.
Proof.
  intros url. unfold fetch_image_data_uri.
  destruct (requests_get W url) as [response | e]; cbn [bind]; [ | reflexivity ].
  destruct (status_code response =? 200)%Z; [ | reflexivity ].
  split; [ reflexivity | apply b64decode_b64encode ].
Qed.

End MediaResolver.

(** C1 fails on a transport error: with the network down the call raises
    instead of returning the empty string. *)
Lemma fetch_image_data_uri_raises_offline :
  requests_get offline (JStr "https://example.org/summit.png")
    = Raise (RequestException "ConnectionError")
  /\ fetch_image_data_uri offline (JStr "https://example.org/summit.png")
    = Raise (RequestException "ConnectionError")
  /\ fetch_image_data_uri offline (JStr "https://example.org/summit.png") <> Ok "".
Proof. repeat split; discriminate. Qed.

Example fetch_image_data_uri_404 :
  fetch_image_data_uri not_found (JStr "https://example.org/summit.png") = Ok "".
Proof. reflexivity. Qed.

Example fetch_image_data_uri_200 :
  fetch_image_data_uri online (JStr "https://example.org/summit.png")
  = Ok "data:image/png;base64,iVBORw==".
Proof. reflexivity. Qed.

(** ** Strings *)

Lemma app_str_assoc : forall a b c : string, a ++ b ++ c = (a ++ b) ++ c.
Proof. induction a as [ | x a IH]; intros b c; simpl; [ | rewrite IH ]; reflexivity. Qed.

Lemma prefix_app : forall n b, String.prefix n (n ++ b) = true.
Proof.
  induction n as [ | c n IH]; intros b; simpl.
  - destruct b; reflexivity.
  - destruct (ascii_dec c c) as [_ | Hne]; [ apply IH | contradiction ].
Qed.

Lemma contains_prefix : forall n s, String.prefix n s = true -> contains n s = true.
Proof. intros n s H. destruct s; unfold contains; fold contains; rewrite H; reflexivity. Qed.

Lemma contains_app : forall a n b, contains n (a ++ n ++ b) = true.
Proof.
  induction a as [ | c a IH]; intros n b.
  - change ("" ++ n ++ b) with (n ++ b). apply contains_prefix, prefix_app.
  - simpl. rewrite IH. apply orb_true_r.
Qed.

Lemma contains_middle :
  forall a n b s, s = (a ++ n ++ b) -> contains n s = true.
Proof. intros a n b s ->. apply contains_app. Qed.

Lemma lookup_some_truthy :
  forall {num} {N : PyNum num} (kv : list (string * json num)) k v,
    lookup k kv = Some v -> py_truthy (JObj kv) = true.
Proof. intros num N kv k v H. destruct kv; [ discriminate | reflexivity ]. Qed.

(** ** Popup content builder *)

Section PopupContent.

Context {num : Type} {N : PyNum num} (W : World num).

(** C2, as the code has it: for text content with title [T] and text [X]
    the popup is the fixed frame with [T] as its heading and [X] as its
    paragraph, both verbatim: no character of them is escaped. *)
Theorem create_bookmark_content_text_verbatim :
  forall (kv : list (string * json num)) (T X : string),
    lookup "type" kv = Some (JStr "text") ->
    lookup "title" kv = Some (JStr T) ->
    lookup "text" kv = Some (JStr X) ->
    create_bookmark_content W (JObj kv) = Ok (text_popup T X)
    /\ contains ("<h3>" ++ T ++ "</h3>") (text_popup T X) = true
    /\ contains ("<p>" ++ X ++ "</p>") (text_popup T X) = true.
Proof.
  intros kv T X Hty Hti Hte. split; [ | split ].
  - unfold create_bookmark_content.
    rewrite (lookup_some_truthy kv _ _ Hty). simpl.
    unfold dict_get. rewrite Hty, Hti, Hte. reflexivity.
  - unfold text_popup.
    rewrite (contains_middle
               (nl ++ spaces 12 ++ "<div class=" ++ dq ++ "modal-content" ++ dq ++ ">"
                ++ nl ++ spaces 16)
               ("<h3>" ++ T ++ "</h3>")
               (nl ++ spaces 16 ++ "<p>" ++ X ++ "</p>"
                ++ nl ++ spaces 12 ++ "</div>" ++ nl ++ spaces 8)); [ reflexivity | ].
    rewrite <- !app_str_assoc. reflexivity.
  - unfold text_popup.
    rewrite (contains_middle
               (nl ++ spaces 12 ++ "<div class=" ++ dq ++ "modal-content" ++ dq ++ ">"
                ++ nl ++ spaces 16 ++ "<h3>" ++ T ++ "</h3>" ++ nl ++ spaces 16)
               ("<p>" ++ X ++ "</p>")
               (nl ++ spaces 12 ++ "</div>" ++ nl ++ spaces 8)); [ reflexivity | ].
    rewrite <- !app_str_assoc. reflexivity.
Qed.

End PopupContent.

Lemma create_bookmark_content_text_sample :
  create_bookmark_content online sample_text_content = Ok (text_popup "T" "hello")
  /\ contains "<h3>T</h3>" (text_popup "T" "hello") = true
  /\ contains "<p>hello</p>" (text_popup "T" "hello") = true.
Proof.
  exact (create_bookmark_content_text_verbatim online
           [("type", JStr "text"); ("title", JStr "T"); ("text", JStr "hello")]
           "T" "hello" eq_refl eq_refl eq_refl).
Defined.

(** C2 fails on markup: a title with [<] and a text with [&] reach the
    popup as they are, and no escape sequence is produced. *)
Lemma create_bookmark_content_text_not_escaped :
  create_bookmark_content online markup_text_content
    = Ok (text_popup "<b>T</b>" "R&D")
  /\ create_bookmark_content online markup_text_content
    <> Ok (text_popup (html_escape "<b>T</b>") (html_escape "R&D"))
  /\ contains "&lt;" (text_popup "<b>T</b>" "R&D") = false
  /\ contains "&amp;" (text_popup "<b>T</b>" "R&D") = false.
Proof.
  split; [ reflexivity | split; [ | split; reflexivity ] ].
  intros H. vm_compute in H. discriminate H.
Qed.

(** ** URL parsing on video ids *)

Lemma id_char_eqb :
  forall c x, id_char c = true -> id_char x = false -> Ascii.eqb c x = false.
Proof.
  intros c x Hc Hx. destruct (Ascii.eqb c x) eqn:E; [ | reflexivity ].
  apply Ascii.eqb_eq in E. subst x. congruence.
Qed.

Section VideoIds.

Variable s : string.
Hypothesis Hs : forallb_str id_char s = true.

Lemma mem_char_id : forall x, id_char x = false -> mem_char x s = false.
Proof.
  intros x Hx. induction s as [ | c s' IH]; [ reflexivity | ].
  simpl in *. apply andb_prop in Hs as [Hc Hs'].
  rewrite Ascii.eqb_sym, (id_char_eqb c x Hc Hx). simpl. auto.
Qed.

Lemma partition_id : forall x, id_char x = false -> partition x s = None.
Proof.
  intros x Hx. induction s as [ | c s' IH]; [ reflexivity | ].
  simpl in *. apply andb_prop in Hs as [Hc Hs'].
  rewrite (id_char_eqb c x Hc Hx), (IH Hs'). reflexivity.
Qed.

Lemma split_id : forall x, id_char x = false -> split x s = [s].
Proof.
  intros x Hx. induction s as [ | c s' IH]; [ reflexivity | ].
  simpl in *. apply andb_prop in Hs as [Hc Hs'].
  rewrite (id_char_eqb c x Hc Hx), (IH Hs'). reflexivity.
Qed.

Lemma replace_char_id :
  forall x y, id_char x = false -> replace_char x y s = s.
Proof.
  intros x y Hx. induction s as [ | c s' IH]; [ reflexivity | ].
  simpl in *. apply andb_prop in Hs as [Hc Hs'].
  rewrite (id_char_eqb c x Hc Hx), (IH Hs'). reflexivity.
Qed.

Lemma remove_chars_id :
  forall cs, forallb_str (fun x => negb (id_char x)) cs = true ->
             remove_chars cs s = s.
Proof.
  intros cs Hcs. induction s as [ | c s' IH]; [ reflexivity | ].
  simpl in *. apply andb_prop in Hs as [Hc Hs'].
  assert (Hm : mem_char c cs = false).
  { clear - Hc Hcs. induction cs as [ | x cs IHcs]; [ reflexivity | ].
    simpl in *. apply andb_prop in Hcs as [Hx Hcs].
    apply negb_true_iff in Hx.
    rewrite (id_char_eqb c x Hc Hx). simpl. auto. }
  rewrite Hm, (IH Hs'). reflexivity.
Qed.

End VideoIds.

Ltac id_rewrite H :=
  repeat first
    [ rewrite (remove_chars_id _ H) by reflexivity
    | rewrite (partition_id _ H) by reflexivity
    | rewrite (mem_char_id _ H) by reflexivity
    | rewrite (split_id _ H) by reflexivity
    | rewrite (replace_char_id _ H) by reflexivity ].

Ltac crunch H := repeat (progress (cbn; id_rewrite H)).

Lemma is_video_id_chars :
  forall id, is_video_id id = true -> id <> "" /\ forallb_str id_char id = true.
Proof.
  intros id H. unfold is_video_id in H. apply andb_prop in H as [Hne Hid].
  split; [ | exact Hid ]. intros ->. discriminate Hne.
Qed.

(** ** Video id extraction *)

Section VideoIdExtraction.

Context {num : Type} {N : PyNum num} (W : World num).

Lemma extract_short_link :
  forall sch id, In sch ["http"; "https"] -> forallb_str id_char id = true ->
    extract_youtube_video_id W (JStr (sch ++ "://youtu.be/" ++ id)) = Ok (Some id).
Proof.
  intros sch id Hsch Hid.
  destruct Hsch as [<- | [<- | []]];
    unfold extract_youtube_video_id, urlparse; crunch Hid; reflexivity.
Qed.

Lemma extract_watch :
  forall sch host id,
    In sch ["http"; "https"] -> In host ["www.youtube.com"; "youtube.com"] ->
    is_video_id id = true ->
    extract_youtube_video_id W (JStr (sch ++ "://" ++ host ++ "/watch?v=" ++ id))
    = Ok (Some id).
Proof.
  intros sch host id Hsch Hhost Hv.
  destruct (is_video_id_chars id Hv) as [Hne Hid].
  apply String.eqb_neq in Hne.
  destruct Hsch as [<- | [<- | []]]; destruct Hhost as [<- | [<- | []]];
    unfold extract_youtube_video_id, urlparse; crunch Hid;
    unfold extract_parsed, parse_qsl; crunch Hid;
    rewrite Hne; unfold unquote; crunch Hid; reflexivity.
Qed.

Lemma extract_embed :
  forall sch host id,
    In sch ["http"; "https"] -> In host ["www.youtube.com"; "youtube.com"] ->
    forallb_str id_char id = true ->
    extract_youtube_video_id W (JStr (sch ++ "://" ++ host ++ "/embed/" ++ id))
    = Ok (Some id).
Proof.
  intros sch host id Hsch Hhost Hid.
  destruct Hsch as [<- | [<- | []]]; destruct Hhost as [<- | [<- | []]];
    unfold extract_youtube_video_id, urlparse; crunch Hid;
    unfold extract_parsed; crunch Hid;
    destruct id; reflexivity.
Qed.

Lemma extract_of_parsed :
  forall url p, urlparse W url = Ok p ->
    extract_youtube_video_id W (JStr url) = extract_parsed W p.
Proof. intros url p H. unfold extract_youtube_video_id. rewrite H. reflexivity. Qed.

(** C3, as the code has it: on the three URL shapes, for an id of letters,
    digits, [-] and [_], the function returns the id; what decides on any
    URL that [urlparse] accepts is the host name and then the path: host
    [youtu.be] gives the path after its first character whatever the path
    is, a host other than the three gives [None], and a [youtube.com]
    host with a path that is neither [/watch] nor under [/embed/] gives
    [None]. *)
Theorem extract_youtube_video_id_by_host_and_path :
  (forall sch host id,
      In sch ["http"; "https"] -> In host ["www.youtube.com"; "youtube.com"] ->
      is_video_id id = true ->
      extract_youtube_video_id W (JStr (sch ++ "://youtu.be/" ++ id)) = Ok (Some id)
      /\ extract_youtube_video_id W (JStr (sch ++ "://" ++ host ++ "/watch?v=" ++ id))
         = Ok (Some id)
      /\ extract_youtube_video_id W (JStr (sch ++ "://" ++ host ++ "/embed/" ++ id))
         = Ok (Some id))
  /\ (forall url p,
        urlparse W url = Ok p ->
        (hostname p = Some "youtu.be" ->
         extract_youtube_video_id W (JStr url) = Ok (Some (tail (path p))))
        /\ (hostname p <> Some "youtu.be" ->
            hostname p <> Some "www.youtube.com" ->
            hostname p <> Some "youtube.com" ->
            extract_youtube_video_id W (JStr url) = Ok None)
        /\ (hostname p = Some "www.youtube.com" \/ hostname p = Some "youtube.com" ->
            path p <> "/watch" ->
            startswith "/embed/" (path p) = false ->
            extract_youtube_video_id W (JStr url) = Ok None)).
Proof.
  split.
  - intros sch host id Hsch Hhost Hv.
    destruct (is_video_id_chars id Hv) as [_ Hid].
    auto using extract_short_link, extract_watch, extract_embed.
  - intros url p Hp. rewrite (extract_of_parsed url p Hp).
    unfold extract_parsed. split; [ | split ].
    + intros ->. reflexivity.
    + intros H1 H2 H3. destruct (hostname p) as [h | ]; [ | reflexivity ].
      destruct (String.eqb_spec h "youtu.be") as [-> | _]; [ contradiction | ].
      unfold string_mem, existsb.
      destruct (String.eqb_spec h "www.youtube.com") as [-> | _]; [ contradiction | ].
      destruct (String.eqb_spec h "youtube.com") as [-> | _]; [ contradiction | ].
      reflexivity.
    + intros Hh Hw He. rewrite He.
      destruct (String.eqb_spec (path p) "/watch") as [E | _]; [ contradiction | ].
      destruct Hh as [-> | ->]; reflexivity.
Qed.

End VideoIdExtraction.

Lemma extract_youtube_video_id_samples :
  (extract_youtube_video_id online (JStr "https://youtu.be/abc123") = Ok (Some "abc123")
   /\ extract_youtube_video_id online (JStr "https://www.youtube.com/watch?v=abc123")
      = Ok (Some "abc123")
   /\ extract_youtube_video_id online (JStr "https://www.youtube.com/embed/abc123")
      = Ok (Some "abc123"))
  /\ extract_youtube_video_id online (JStr "https://youtu.be/abc123?t=42")
     = Ok (Some "abc123")
  /\ extract_youtube_video_id online (JStr "https://vimeo.com/watch?v=abc123") = Ok None
  /\ extract_youtube_video_id online (JStr "https://youtube.com/shorts/abc123") = Ok None.
Proof.
  destruct (extract_youtube_video_id_by_host_and_path online) as [Hshape Hparsed].
  split; [ | split; [ | split ] ].
  - apply (Hshape "https" "www.youtube.com" "abc123");
      [ right; left; reflexivity | left; reflexivity | reflexivity ].
  - destruct (Hparsed "https://youtu.be/abc123?t=42"
                {| scheme := "https"; netloc := "youtu.be"; path := "/abc123";
                   params := ""; query := "t=42"; fragment := "" |} eq_refl)
      as [Hshort _].
    apply Hshort. reflexivity.
  - destruct (Hparsed "https://vimeo.com/watch?v=abc123"
                {| scheme := "https"; netloc := "vimeo.com"; path := "/watch";
                   params := ""; query := "v=abc123"; fragment := "" |} eq_refl)
      as [_ [Hother _]].
    apply Hother; intros E; vm_compute in E; discriminate E.
  - destruct (Hparsed "https://youtube.com/shorts/abc123"
                {| scheme := "https"; netloc := "youtube.com"; path := "/shorts/abc123";
                   params := ""; query := ""; fragment := "" |} eq_refl)
      as [_ [_ Hpath]].
    apply Hpath; [ right; reflexivity | intros E; discriminate E | reflexivity ].
Defined.

(** C3 fails on a bare host: [https://youtu.be] has none of the three
    shapes, and the function returns the empty string, not [None]. *)
Lemma extract_youtube_video_id_bare_host :
  contains "youtu.be/" "https://youtu.be" = false
  /\ contains "youtube.com/watch?v=" "https://youtu.be" = false
  /\ contains "youtube.com/embed/" "https://youtu.be" = false
  /\ extract_youtube_video_id online (JStr "https://youtu.be") = Ok (Some "")
  /\ extract_youtube_video_id online (JStr "https://youtu.be") <> Ok None.
Proof. repeat split; discriminate. Qed.

Example extract_youtube_video_id_spec_urls :
  map (fun u => extract_youtube_video_id online (JStr u))
      ["https://youtu.be/abc123"; "https://www.youtube.com/watch?v=abc123";
       "https://youtube.com/embed/abc123"; "https://example.org/"]
  = [Ok (Some "abc123"); Ok (Some "abc123"); Ok (Some "abc123"); Ok None].
Proof. reflexivity. Qed.

(** ** Feature renderer *)

Section FeatureRenderer.

Context {num : Type} {N : PyNum num} (W : World num).

Lemma geometry_type_inv :
  forall (bm : list (string * json num)) t,
    geometry_type (JObj bm) = Ok t ->
    exists g, dict_get bm "geometry" (JObj []) = JObj g /\ t = dict_get g "type" JNull.
Proof.
  intros bm t H. unfold geometry_type in H. simpl in H.
  destruct (dict_get bm "geometry" (JObj [])) as [ | b | n | s | l | g ];
    try discriminate H.
  exists g. split; [ reflexivity | ]. simpl in H. congruence.
Qed.

(** C4, as the code has it: the popup content is built before the
    geometry is looked at, and an exception raised there is raised to the
    caller; when the content is built, a bookmark whose geometry type is
    none of [Point], [LineString], [Polygon] adds no feature to the map,
    prints the unsupported-geometry line, and returns the entry of the
    fallback center with the bookmark's zoom (13 by default) and tile
    layer (Positron by default). *)
Theorem add_bookmark_to_map_unsupported :
  forall (bm : list (string * json num)) (m : page_state) (center : json num * json num)
         (t : json num),
    geometry_type (JObj bm) = Ok t ->
    supported_geometry t = false ->
    match create_bookmark_content W (dict_get bm "content" (JObj [])) with
    | Ok _ =>
        add_bookmark_to_map W (JObj bm) m center =
        Ok ({| lat := fst center; lon := snd center;
               zoom := dict_get bm "zoom" (JNum (num_of_nat 13));
               tile_layer := dict_get bm "tile_layer" (JStr "Positron") |},
            {| features := features m;
               stdout := List.app (stdout m)
                                  ["Unsupported geometry type: " ++ py_str W t] |})
    | Raise e => add_bookmark_to_map W (JObj bm) m center = Raise e
    end.
Proof.
  intros bm m center t Hty Hsup.
  destruct (geometry_type_inv bm t Hty) as [g [Hg ->]].
  unfold supported_geometry in Hsup.
  apply orb_false_elim in Hsup as [Hsup Hpoly].
  apply orb_false_elim in Hsup as [Hpoint Hline].
  unfold add_bookmark_to_map. cbn [py_get bind]. rewrite Hg. cbn [py_get bind].
  destruct (create_bookmark_content W (dict_get bm "content" (JObj [])))
    as [popup_content | e]; cbn [bind]; [ | reflexivity ].
  rewrite Hpoint, Hline, Hpoly. reflexivity.
Qed.

Ltac run_step H :=
  match type of H with
  | context [match ?x with _ => _ end] =>
      lazymatch x with
      | context [match _ with _ => _ end] => fail
      | _ => destruct x eqn:?; cbv beta iota in H |- *; try discriminate H
      end
  end.

(** The map and the output are only written: the entry of a bookmark,
    and whether it is rendered at all, do not depend on them. *)
Lemma add_bookmark_to_map_any_state :
  forall (b : json num) (m1 m2 : page_state) center e m1',
    add_bookmark_to_map W b m1 center = Ok (e, m1') ->
    exists m2', add_bookmark_to_map W b m2 center = Ok (e, m2').
Proof.
  intros b m1 m2 center e m1' H.
  unfold add_bookmark_to_map in *.
  cbv beta iota delta [bind] in H |- *.
  repeat run_step H.
  all: injection H as <- <-; eexists; reflexivity.
Qed.

End FeatureRenderer.

(** C4 fails when the popup content cannot be built: a Circle bookmark
    with image content, rendered with the network down, raises the
    transport error and returns no entry. *)
Lemma add_bookmark_to_map_circle_offline :
  geometry_type (JObj circle_photo_items) = Ok (JStr "Circle")
  /\ supported_geometry (JStr (num := float) "Circle") = false
  /\ add_bookmark_to_map offline (JObj circle_photo_items) empty_page sample_center
     = Raise (RequestException "ConnectionError")
  /\ (forall entry m,
        add_bookmark_to_map offline (JObj circle_photo_items) empty_page sample_center
        <> Ok (entry, m)).
Proof. repeat split; discriminate. Qed.

Lemma add_bookmark_to_map_circle :
  add_bookmark_to_map online (JObj circle_items) empty_page sample_center
  = Ok ({| lat := fst sample_center; lon := snd sample_center;
           zoom := JNum (float_of_Z 9); tile_layer := JStr "Esri Satellite" |},
        {| features := []; stdout := ["Unsupported geometry type: Circle"] |}).
Proof.
  exact (add_bookmark_to_map_unsupported online circle_items empty_page sample_center
           (JStr "Circle") eq_refl eq_refl).
Defined.

Section Anchors.

Context {num : Type} {N : PyNum num} (W : World num).

Lemma lon_lat_pairs_ring :
  forall pts : list (num * num),
    lon_lat_pairs (ring_json pts)
    = Ok (map (fun p => (JNum (fst p), JNum (snd p))) pts).
Proof.
  intros pts. unfold lon_lat_pairs, ring_json. cbn [py_iter bind].
  induction pts as [ | p pts IH]; [ reflexivity | ].
  cbn [map mapM]. rewrite IH. reflexivity.
Qed.

Lemma py_sum_from_numbers :
  forall (l : list num) acc,
    py_sum_from acc (map JNum l) = Ok (fold_left num_add l acc).
Proof.
  induction l as [ | x l IH]; intros acc; [ reflexivity | ].
  cbn [map py_sum_from py_add bind fold_left]. apply IH.
Qed.

Lemma py_mean_numbers :
  forall l : list num, l <> [] -> py_mean (map JNum l) = Ok (arith_mean l).
Proof.
  intros l Hl. unfold py_mean, py_sum. rewrite py_sum_from_numbers. cbn [bind].
  rewrite length_map. destruct l as [ | x l]; [ contradiction | ]. reflexivity.
Qed.

Lemma swap_ring :
  forall pts : list (num * num),
    map swap (map (fun p => (JNum (fst p), JNum (snd p))) pts)
    = map (fun p => (JNum (snd p), JNum (fst p))) pts.
Proof. intros pts. rewrite map_map. reflexivity. Qed.

Lemma lats_of_ring :
  forall pts : list (num * num),
    map fst (map (fun p => (JNum (snd p), JNum (fst p))) pts)
    = map JNum (map snd pts).
Proof. intros pts. rewrite !map_map. reflexivity. Qed.

Lemma lons_of_ring :
  forall pts : list (num * num),
    map snd (map (fun p => (JNum (snd p), JNum (fst p))) pts)
    = map JNum (map fst pts).
Proof. intros pts. rewrite !map_map. reflexivity. Qed.

(** The area uses the first ring only: any two lists of rings with the
    same first ring get the same answer (supporting C5). *)
Lemma calculate_polygon_area_first_ring :
  forall (ring : json num) (holes holes' : list (json num)),
    calculate_polygon_area W (JArr (ring :: holes))
    = calculate_polygon_area W (JArr (ring :: holes')).
Proof. reflexivity. Qed.

Lemma mapM_app :
  forall {A B} (f : A -> result B) l1 l2 r1 r2,
    mapM f l1 = Ok r1 -> mapM f l2 = Ok r2 -> mapM f (l1 ++ l2)%list = Ok (r1 ++ r2)%list.
Proof.
  intros A B f. induction l1 as [ | a l1 IH]; intros l2 r1 r2 H1 H2.
  - injection H1 as <-. exact H2.
  - cbn [mapM app] in *. destruct (f a) as [b | e]; [ | discriminate H1 ].
    cbn [bind] in *. destruct (mapM f l1) as [bs | e]; [ | discriminate H1 ].
    cbn [bind] in *. injection H1 as <-.
    rewrite (IH l2 bs r2 eq_refl H2). reflexivity.
Qed.

(** A reversed line reaches the geometry kernel as the reversed list of
    its vertices (supporting C6). *)
Lemma lon_lat_pairs_rev :
  forall (l : list (json num)) pairs,
    lon_lat_pairs (JArr l) = Ok pairs ->
    lon_lat_pairs (JArr (rev l)) = Ok (rev pairs).
Proof.
  unfold lon_lat_pairs. cbn [py_iter bind].
  induction l as [ | x l IH]; intros pairs H.
  - injection H as <-. reflexivity.
  - cbn [mapM rev] in *. destruct (py_unpack2 x) as [p | e] eqn:Ex; [ | discriminate H ].
    cbn [bind] in H. destruct (mapM py_unpack2 l) as [ps | e]; [ | discriminate H ].
    cbn [bind] in H. injection H as <-.
    cbn [rev]. apply mapM_app; [ apply IH; reflexivity | ].
    cbn [mapM]. rewrite Ex. reflexivity.
Qed.

(** C10: on a Point bookmark with two coordinates that folium accepts as
    a location, a missing content field and an empty content mapping both
    give a marker with the default info icon and an empty popup, while a
    content field that is present and null raises [AttributeError] at the
    icon lookup. *)
Theorem add_bookmark_to_map_point_content :
  forall (bm g : list (string * json num)) (m : page_state)
         (center : json num * json num) (lon lat : json num),
    lookup "geometry" bm = Some (JObj g) ->
    lookup "type" g = Some (JStr "Point") ->
    lookup "coordinates" g = Some (JArr [lon; lat]) ->
    (folium_location W (lat, lon) = None ->
     lookup "content" bm = None \/ lookup "content" bm = Some (JObj []) ->
     add_bookmark_to_map W (JObj bm) m center
     = Ok ({| lat := lat; lon := lon;
              zoom := dict_get bm "zoom" (JNum (num_of_nat 13));
              tile_layer := dict_get bm "tile_layer" (JStr "Positron") |},
           add_to (Marker (lat, lon) {| html := ""; max_width := 600 |}
                          {| icon := "info-sign"; prefix := "fa";
                             color := "blue"; icon_color := "#000" |}
                          (dict_get bm "title" (JStr "Untitled"))) m))
    /\ (lookup "content" bm = Some JNull ->
        add_bookmark_to_map W (JObj bm) m center = Raise AttributeError).
Proof.
  intros bm g m center lon lat Hg Hty Hco.
  assert (Hgeo : dict_get bm "geometry" (JObj []) = JObj g)
    by (unfold dict_get; rewrite Hg; reflexivity).
  assert (Htype : dict_get g "type" JNull = JStr "Point")
    by (unfold dict_get; rewrite Hty; reflexivity).
  assert (Hcoord : dict_get g "coordinates" (JArr []) = JArr [lon; lat])
    by (unfold dict_get; rewrite Hco; reflexivity).
  split.
  - intros Hfolium Hc.
    assert (Hcontent : dict_get bm "content" (JObj []) = JObj [])
      by (unfold dict_get; destruct Hc as [-> | ->]; reflexivity).
    unfold add_bookmark_to_map. cbn [py_get bind].
    rewrite Hgeo. cbn [py_get bind]. rewrite Htype, Hcoord, Hcontent.
    cbn. rewrite Hfolium. reflexivity.
  - intros Hc.
    assert (Hcontent : dict_get bm "content" (JObj []) = JNull)
      by (unfold dict_get; rewrite Hc; reflexivity).
    unfold add_bookmark_to_map. cbn [py_get bind].
    rewrite Hgeo. cbn [py_get bind]. rewrite Htype, Hcoord, Hcontent.
    reflexivity.
Qed.

(** C7: on a LineString bookmark whose line is measured, the map gains
    one feature after those it had, and nothing is printed: the polyline,
    which carries as popup the output of the content builder followed by
    [<p>Length: N.NN miles</p>], the length being the projected length over
    1609.34 in two decimals; when the content builder gives the empty
    string the popup is the minimal frame with the bookmark title as
    heading and the same length paragraph. *)
Theorem add_bookmark_to_map_linestring_popup :
  forall (bm g st : list (string * json num)) (m : page_state)
         (center : json num * json num) (pairs : list (json num * json num))
         (projected : num) (content_html : string),
    lookup "geometry" bm = Some (JObj g) ->
    lookup "type" g = Some (JStr "LineString") ->
    lon_lat_pairs (dict_get g "coordinates" (JArr [])) = Ok pairs ->
    pairs <> [] ->
    folium_locations W (map swap pairs) = None ->
    projected_length W pairs = Ok projected ->
    dict_get bm "style" (JObj []) = JObj st ->
    create_bookmark_content W (dict_get bm "content" (JObj [])) = Ok content_html ->
    let length_paragraph :=
      "<p>Length: " ++ num_fmt2f (num_truediv projected (num_dec 160934 (-2)))
      ++ " miles</p>" in
    let popup_html :=
      if String.eqb content_html ""
      then "<div class='modal-content'><h3>"
           ++ py_str W (dict_get bm "title" (JStr "Untitled"))
           ++ "</h3>" ++ length_paragraph ++ "</div>"
      else content_html ++ length_paragraph in
    exists entry,
      add_bookmark_to_map W (JObj bm) m center
      = Ok (entry,
            {| features :=
                 List.app (features m)
                   [PolyLine (map swap pairs)
                             (dict_get st "color" (JStr "blue"))
                             (dict_get st "weight" (JNum (num_of_nat 5)))
                             (dict_get st "opacity" (JNum (num_dec 7 (-1))))
                             (dict_get bm "title" (JStr "Untitled"))
                             {| html := popup_html; max_width := 600 |}];
               stdout := stdout m |}).
Proof.
  intros bm g st m center pairs projected content_html
         Hg Hty Hpairs Hne Hfolium Hlen Hstyle Hpop length_paragraph popup_html.
  assert (Hgeo : dict_get bm "geometry" (JObj []) = JObj g)
    by (unfold dict_get; rewrite Hg; reflexivity).
  assert (Htype : dict_get g "type" JNull = JStr "LineString")
    by (unfold dict_get; rewrite Hty; reflexivity).
  assert (Hmid : exists loc,
             nth_error (map swap pairs) (Nat.div (length (map swap pairs)) 2) = Some loc).
  { destruct (nth_error (map swap pairs) (Nat.div (length (map swap pairs)) 2)) eqn:E;
      [ eexists; reflexivity | ].
    apply nth_error_None in E. rewrite length_map in E.
    destruct pairs as [ | p pairs]; [ contradiction | ].
    cbn [length] in E.
    pose proof (Nat.div_lt (S (length pairs)) 2). lia. }
  destruct Hmid as [loc Hloc].
  exists {| lat := fst loc; lon := snd loc;
            zoom := dict_get bm "zoom" (JNum (num_of_nat 13));
            tile_layer := dict_get bm "tile_layer" (JStr "Positron") |}.
  unfold add_bookmark_to_map. cbn [py_get bind].
  rewrite Hgeo. cbn [py_get bind]. rewrite Htype, Hpop. cbn [bind].
  change (py_eq_str (JStr "LineString") "Point") with false.
  change (py_eq_str (JStr "LineString") "LineString") with true.
  cbv iota. rewrite Hpairs. cbn [bind]. rewrite Hstyle. cbn [py_get bind].
  rewrite Hfolium. cbn [check bind].
  unfold calculate_line_length. rewrite Hpairs. cbn [bind]. rewrite Hlen. cbn [bind].
  rewrite Hloc. unfold add_to.
  subst popup_html length_paragraph.
  destruct (String.eqb content_html ""); cbn [negb];
    rewrite <- ?app_str_assoc; reflexivity.
Qed.

(** C8: on a Polygon bookmark whose outer ring is the list [pts] of
    (lon, lat) numbers and whose area is measured, the entry's [lat] is the
    arithmetic mean of the latitudes of [pts] and its [lon] the arithmetic
    mean of their longitudes, every listed vertex counting once. *)
Theorem add_bookmark_to_map_polygon_anchor :
  forall (bm g st : list (string * json num)) (m : page_state)
         (center : json num * json num) (pts : list (num * num))
         (holes : list (json num)) (area : num) (content_html : string),
    lookup "geometry" bm = Some (JObj g) ->
    lookup "type" g = Some (JStr "Polygon") ->
    lookup "coordinates" g = Some (JArr (ring_json pts :: holes)) ->
    pts <> [] ->
    folium_locations W (map (fun p => (JNum (snd p), JNum (fst p))) pts) = None ->
    projected_area W (map (fun p => (JNum (fst p), JNum (snd p))) pts) = Ok area ->
    dict_get bm "style" (JObj []) = JObj st ->
    create_bookmark_content W (dict_get bm "content" (JObj [])) = Ok content_html ->
    exists m',
      add_bookmark_to_map W (JObj bm) m center
      = Ok ({| lat := JNum (arith_mean (map snd pts));
               lon := JNum (arith_mean (map fst pts));
               zoom := dict_get bm "zoom" (JNum (num_of_nat 13));
               tile_layer := dict_get bm "tile_layer" (JStr "Positron") |}, m').
Proof.
  intros bm g st m center pts holes area content_html
         Hg Hty Hco Hne Hfolium Harea Hstyle Hpop.
  assert (Hgeo : dict_get bm "geometry" (JObj []) = JObj g)
    by (unfold dict_get; rewrite Hg; reflexivity).
  assert (Htype : dict_get g "type" JNull = JStr "Polygon")
    by (unfold dict_get; rewrite Hty; reflexivity).
  assert (Hcoord : dict_get g "coordinates" (JArr []) = JArr (ring_json pts :: holes))
    by (unfold dict_get; rewrite Hco; reflexivity).
  eexists.
  unfold add_bookmark_to_map. cbn [py_get bind].
  rewrite Hgeo. cbn [py_get bind]. rewrite Htype, Hcoord, Hpop. cbn [bind].
  change (py_eq_str (JStr "Polygon") "Point") with false.
  change (py_eq_str (JStr "Polygon") "LineString") with false.
  change (py_eq_str (JStr "Polygon") "Polygon") with true.
  cbv iota. cbn [py_getitem0 bind]. rewrite lon_lat_pairs_ring. cbn [bind].
  rewrite Hstyle. cbn [py_get bind].
  rewrite swap_ring, Hfolium. cbn [check bind].
  unfold calculate_polygon_area. cbn [py_getitem0 bind].
  rewrite lon_lat_pairs_ring. cbn [bind]. rewrite Harea. cbn [bind].
  rewrite lats_of_ring, lons_of_ring.
  rewrite !py_mean_numbers by (destruct pts; [ contradiction | discriminate ]).
  cbn [bind fst snd]. reflexivity.
Qed.

End Anchors.

(** ** Page assembler *)

Section PageAssembler.

Context {num : Type} {N : PyNum num} (W : World num).

Lemma collect_locations_indexed :
  forall center bookmarks i m,
    Forall (renders W center) bookmarks ->
    exists locs m',
      collect_locations W i bookmarks m center = Ok (locs, m')
      /\ map fst locs = seq i (length bookmarks)
      /\ forall k b, nth_error bookmarks k = Some b ->
           exists e mb,
             add_bookmark_to_map W b empty_page center = Ok (e, mb)
             /\ nth_error locs k = Some (i + k, e).
Proof.
  intros center. induction bookmarks as [ | b rest IH]; intros i m Hall.
  - exists [], m. repeat split. intros [ | k] b' Hk; discriminate Hk.
  - inversion Hall as [ | b0 rest0 [e [mb Hb]] Hrest ]; subst.
    destruct (add_bookmark_to_map_any_state W b empty_page m center e mb Hb)
      as [m1 Hm1].
    destruct (IH (S i) m1 Hrest) as [locs [m' [Hcol [Hkeys Hnth]]]].
    exists ((i, e) :: locs), m'. split; [ | split ].
    + cbn [collect_locations]. rewrite Hm1. cbn [bind]. rewrite Hcol. reflexivity.
    + cbn [map fst length seq]. rewrite Hkeys. reflexivity.
    + intros [ | k] b' Hk; cbn [nth_error] in *.
      * injection Hk as <-. exists e, mb. rewrite Nat.add_0_r. split; [ exact Hb | reflexivity ].
      * destruct (Hnth k b' Hk) as [e' [mb' [He' Hloc]]].
        exists e', mb'. rewrite Nat.add_succ_r. split; assumption.
Qed.



End PageAssembler.

(** ** The theorems on the sample bookmarks *)

Lemma add_bookmark_to_map_point_samples :
  add_bookmark_to_map online (JObj point_items) empty_page sample_center
  = Ok ({| lat := JNum (float_dec 395 (-1)); lon := JNum (float_dec (-1105) (-1));
           zoom := JNum (float_of_Z 13); tile_layer := JStr "Positron" |},
        {| features :=
             [Marker (JNum (float_dec 395 (-1)), JNum (float_dec (-1105) (-1)))
                     {| html := ""; max_width := 600 |}
                     {| icon := "info-sign"; prefix := "fa";
                        color := "blue"; icon_color := "#000" |}
                     (JStr "Trailhead")];
           stdout := [] |})
  /\ add_bookmark_to_map online (JObj point_items_null_content) empty_page sample_center
     = Raise AttributeError.
Proof.
  split.
  - exact (proj1 (add_bookmark_to_map_point_content online point_items
                    [("type", JStr "Point");
                     ("coordinates", JArr [JNum (float_dec (-1105) (-1));
                                           JNum (float_dec 395 (-1))])]
                    empty_page sample_center _ _ eq_refl eq_refl eq_refl)
                 eq_refl (or_introl eq_refl)).
  - exact (proj2 (add_bookmark_to_map_point_content online point_items_null_content
                    [("type", JStr "Point");
                     ("coordinates", JArr [JNum (float_dec (-1105) (-1));
                                           JNum (float_dec 395 (-1))])]
                    empty_page sample_center _ _ eq_refl eq_refl eq_refl)
                 eq_refl).
Defined.

Lemma add_bookmark_to_map_line_samples :
  (exists entry,
      add_bookmark_to_map online (JObj line_items) empty_page sample_center
      = Ok (entry,
            {| features :=
                 [PolyLine (map swap line_pairs) (JStr "blue")
                           (JNum (float_of_Z 5)) (JNum (float_dec 7 (-1)))
                           (JStr "Ridge walk")
                           {| html := text_popup "T" "hello"
                                      ++ "<p>Length: 2.00 miles</p>";
                              max_width := 600 |}];
               stdout := [] |}))
  /\ (exists entry,
         add_bookmark_to_map online (JObj bare_line_items) empty_page sample_center
         = Ok (entry,
               {| features :=
                    [PolyLine (map swap line_pairs) (JStr "blue")
                              (JNum (float_of_Z 5)) (JNum (float_dec 7 (-1)))
                              (JStr "Ridge walk")
                              {| html := "<div class='modal-content'><h3>Ridge walk</h3>"
                                         ++ "<p>Length: 2.00 miles</p></div>";
                                 max_width := 600 |}];
                  stdout := [] |}))
  /\ add_bookmark_to_map online (JObj line_items) empty_page sample_center
     = Ok ({| lat := JNum (float_dec 400 (-1)); lon := JNum (float_dec (-1100) (-1));
              zoom := JNum (float_of_Z 13); tile_layer := JStr "Positron" |},
           {| features :=
                [PolyLine (map swap line_pairs) (JStr "blue")
                          (JNum (float_of_Z 5)) (JNum (float_dec 7 (-1)))
                          (JStr "Ridge walk")
                          {| html := text_popup "T" "hello"
                                     ++ "<p>Length: 2.00 miles</p>";
                             max_width := 600 |}];
              stdout := [] |}).
Proof.
  split; [ | split; [ | reflexivity ] ].
  - exact (add_bookmark_to_map_linestring_popup online line_items
             [("type", JStr "LineString"); ("coordinates", line_coordinates)] []
             empty_page sample_center line_pairs (float_dec 321868 (-2))
             (text_popup "T" "hello")
             eq_refl eq_refl eq_refl ltac:(discriminate) eq_refl eq_refl eq_refl eq_refl).
  - exact (add_bookmark_to_map_linestring_popup online bare_line_items
             [("type", JStr "LineString"); ("coordinates", line_coordinates)] []
             empty_page sample_center line_pairs (float_dec 321868 (-2)) ""
             eq_refl eq_refl eq_refl ltac:(discriminate) eq_refl eq_refl eq_refl eq_refl).
Defined.

Lemma add_bookmark_to_map_polygon_sample :
  exists m',
    add_bookmark_to_map online (JObj polygon_items) empty_page sample_center
    = Ok ({| lat := JNum 0.75%float; lon := JNum 2%float;
             zoom := JNum (float_of_Z 13); tile_layer := JStr "Positron" |}, m').
Proof.
  exact (add_bookmark_to_map_polygon_anchor online polygon_items
           [("type", JStr "Polygon"); ("coordinates", JArr [ring_json triangle; hole])] []
           empty_page sample_center triangle [hole] (float_dec 777 4) ""
           eq_refl eq_refl eq_refl ltac:(discriminate) eq_refl eq_refl eq_refl eq_refl).
Defined.



Example create_map_sample_links :
  match create_map online sample_bookmarks sample_center (JNum (float_of_Z 3)) with
  | Ok pg =>
      map (fun l => contains "zoomToLocation(" l) (nav_links pg) = [true; true; true]
      /\ map (fun kv => lat (snd kv)) (locations_js pg)
         = [JNum (float_dec 395 (-1)); JNum (float_dec 400 (-1)); JNum 0.75%float]
  | Raise _ => False
  end.
Proof. vm_compute. split; reflexivity. Qed.

(** A title that opens a Jinja2 expression and leaves it open: the
    bookmark is rendered, the page is not. *)
Example create_map_braces_title :
  (exists e m',
      add_bookmark_to_map online (JObj braces_point_items) empty_page sample_center
      = Ok (e, m'))
  /\ create_map online [JObj braces_point_items] sample_center (JNum (float_of_Z 3))
     = Raise TemplateSyntaxError.
Proof. split; [ do 2 eexists | ]; vm_compute; reflexivity. Qed.

(** * Further properties of the code *)

(** ** Thumbnails and media popups *)

Section MediaPopups.

Context {num : Type} {N : PyNum num} (W : World num).

Lemma extract_other_host :
  forall url p,
    urlparse W url = Ok p -> is_youtube_host p = false ->
    extract_youtube_video_id W (JStr url) = Ok None.
Proof.
  intros url p Hp Hhost. rewrite (extract_of_parsed W url p Hp).
  unfold extract_parsed. unfold is_youtube_host in Hhost.
  destruct (hostname p) as [h | ]; [ | reflexivity ].
  unfold string_mem in *. cbn [existsb] in *.
  destruct (String.eqb h "youtu.be"); [ discriminate Hhost | ].
  cbn [orb] in Hhost. rewrite Hhost. reflexivity.
Qed.

Lemma fetch_of_response :
  forall (url : json num) response,
    requests_get W url = Ok response ->
    fetch_image_data_uri W url = Ok (data_uri_of response).
Proof.
  intros url response H. unfold fetch_image_data_uri, data_uri_of.
  rewrite H. cbn [bind]. destruct (status_code response =? 200)%Z; reflexivity.
Qed.

Lemma thumbnail_of_id :
  forall (url : json num) id,
    extract_youtube_video_id W url = Ok (Some id) -> id <> "" ->
    get_youtube_thumbnail_data_uri W url
    = fetch_image_data_uri W (JStr (thumbnail_url id)).
Proof.
  intros url id H Hne. unfold get_youtube_thumbnail_data_uri. rewrite H. cbn [bind].
  apply String.eqb_neq in Hne. rewrite Hne. reflexivity.
Qed.

Lemma extract_video_urls :
  forall sch host id u,
    In sch ["http"; "https"] -> In host ["www.youtube.com"; "youtube.com"] ->
    is_video_id id = true -> In u (video_urls sch host id) ->
    extract_youtube_video_id W (JStr u) = Ok (Some id).
Proof.
  intros sch host id u Hsch Hhost Hv Hu.
  destruct (is_video_id_chars id Hv) as [_ Hid].
  destruct Hu as [<- | [<- | [<- | []]]].
  - apply extract_short_link; assumption.
  - apply extract_watch; assumption.
  - apply extract_embed; assumption.
Qed.

(** X1: for a URL of one of the three shapes, the thumbnail is whatever
    the fetch of [https://img.youtube.com/vi/<id>/hqdefault.jpg] gives: the
    same data URI, the same empty string, or the same exception. *)
Theorem get_youtube_thumbnail_data_uri_fetches_hqdefault :
  forall sch host id u,
    In sch ["http"; "https"] -> In host ["www.youtube.com"; "youtube.com"] ->
    is_video_id id = true -> In u (video_urls sch host id) ->
    get_youtube_thumbnail_data_uri W (JStr u)
    = fetch_image_data_uri W (JStr ("https://img.youtube.com/vi/" ++ id ++ "/hqdefault.jpg")).
Proof.
  intros sch host id u Hsch Hhost Hv Hu.
  apply thumbnail_of_id.
  - apply (extract_video_urls sch host id u); assumption.
  - apply (is_video_id_chars id Hv).
Qed.

(** X2: for a URL whose host is not a YouTube host, and for a [youtu.be]
    URL without an id, the thumbnail is the empty string and no request is
    made: the answer is the same in every world, also with the network
    down. *)
Theorem get_youtube_thumbnail_data_uri_without_id :
  forall url p,
    urlparse W url = Ok p ->
    (is_youtube_host p = false \/ (hostname p = Some "youtu.be" /\ tail (path p) = "")) ->
    get_youtube_thumbnail_data_uri W (JStr url) = Ok "".
Proof.
  intros url p Hp [Hhost | [Hhost Hpath]]; unfold get_youtube_thumbnail_data_uri.
  - rewrite (extract_other_host url p Hp Hhost). reflexivity.
  - rewrite (extract_of_parsed W url p Hp). unfold extract_parsed.
    rewrite Hhost, Hpath. reflexivity.
Qed.

(** X3: video content whose URL is not a YouTube URL still gets its
    popup: title heading, link to the URL as given and caption, around an
    image with an empty source.  No request is made. *)
Theorem create_bookmark_content_video_without_thumbnail :
  forall (kv : list (string * json num)) (u : string) p,
    lookup "type" kv = Some (JStr "video") ->
    lookup "url" kv = Some (JStr u) ->
    urlparse W u = Ok p ->
    is_youtube_host p = false ->
    let title := py_str W (dict_get kv "title" (JStr "")) in
    create_bookmark_content W (JObj kv) = Ok (video_popup title u "")
    /\ contains ("<a href=" ++ dq ++ u ++ dq) (video_popup title u "") = true
    /\ contains ("<img src=" ++ dq ++ dq) (video_popup title u "") = true.
Proof.
  intros kv u p Hty Hurl Hp Hhost title. split; [ | split ].
  - unfold create_bookmark_content.
    rewrite (lookup_some_truthy kv _ _ Hty). cbn [negb py_get bind].
    unfold dict_get at 1. rewrite Hty. cbn [py_eq_str String.eqb Ascii.eqb Bool.eqb andb].
    cbv iota. unfold py_getitem. rewrite Hurl. cbn [bind].
    unfold get_youtube_thumbnail_data_uri.
    rewrite (extract_other_host u p Hp Hhost). cbn [bind py_str].
    reflexivity.
  - unfold video_popup.
    apply (contains_middle
             (nl ++ spaces 12 ++ "<div class=" ++ dq ++ "modal-content" ++ dq ++ ">"
              ++ nl ++ spaces 16 ++ "<h3>" ++ title ++ "</h3>" ++ nl ++ spaces 16)
             ("<a href=" ++ dq ++ u ++ dq)
             (" target=" ++ dq ++ "_blank" ++ dq ++ ">"
              ++ nl ++ spaces 20 ++ "<img src=" ++ dq ++ "" ++ dq
              ++ " alt=" ++ dq ++ title ++ dq
              ++ " style=" ++ dq ++ "max-width:100%;" ++ dq ++ ">"
              ++ nl ++ spaces 16 ++ "</a>"
              ++ nl ++ spaces 16 ++ "<p>Click the image to watch the video.</p>"
              ++ nl ++ spaces 12 ++ "</div>" ++ nl ++ spaces 8)).
    rewrite <- !app_str_assoc. reflexivity.
  - unfold video_popup.
    apply (contains_middle
             (nl ++ spaces 12 ++ "<div class=" ++ dq ++ "modal-content" ++ dq ++ ">"
              ++ nl ++ spaces 16 ++ "<h3>" ++ title ++ "</h3>" ++ nl ++ spaces 16
              ++ "<a href=" ++ dq ++ u ++ dq
              ++ " target=" ++ dq ++ "_blank" ++ dq ++ ">" ++ nl ++ spaces 20)
             ("<img src=" ++ dq ++ dq)
             (" alt=" ++ dq ++ title ++ dq
              ++ " style=" ++ dq ++ "max-width:100%;" ++ dq ++ ">"
              ++ nl ++ spaces 16 ++ "</a>"
              ++ nl ++ spaces 16 ++ "<p>Click the image to watch the video.</p>"
              ++ nl ++ spaces 12 ++ "</div>" ++ nl ++ spaces 8)).
    rewrite <- !app_str_assoc. reflexivity.
Qed.

(** X4: video content whose URL has one of the three shapes gets the
    popup whose image is the data URI of the thumbnail response (an empty
    source when that response is not a 200), linked to the URL as given. *)
Theorem create_bookmark_content_video_thumbnail :
  forall (kv : list (string * json num)) sch host id u response,
    In sch ["http"; "https"] -> In host ["www.youtube.com"; "youtube.com"] ->
    is_video_id id = true -> In u (video_urls sch host id) ->
    lookup "type" kv = Some (JStr "video") ->
    lookup "url" kv = Some (JStr u) ->
    requests_get W (JStr (thumbnail_url id)) = Ok response ->
    create_bookmark_content W (JObj kv)
    = Ok (video_popup (py_str W (dict_get kv "title" (JStr ""))) u
                      (data_uri_of response)).
Proof.
  intros kv sch host id u response Hsch Hhost Hv Hu Hty Hurl Hget.
  unfold create_bookmark_content.
  rewrite (lookup_some_truthy kv _ _ Hty). cbn [negb py_get bind].
  unfold dict_get at 1. rewrite Hty. cbn [py_eq_str String.eqb Ascii.eqb Bool.eqb andb].
  cbv iota. unfold py_getitem. rewrite Hurl. cbn [bind].
  rewrite (thumbnail_of_id (JStr u) id
             (extract_video_urls sch host id u Hsch Hhost Hv Hu)
             (proj1 (is_video_id_chars id Hv))).
  rewrite (fetch_of_response _ response Hget). cbn [bind py_str]. reflexivity.
Qed.

(** X5: image content gets the popup whose image is the data URI of the
    response to its URL, or an empty source when the response is not a
    200; the title is the heading and the alternative text. *)
Theorem create_bookmark_content_image_inlined :
  forall (kv : list (string * json num)) (url : json num) response,
    lookup "type" kv = Some (JStr "image") ->
    lookup "url" kv = Some url ->
    requests_get W url = Ok response ->
    create_bookmark_content W (JObj kv)
    = Ok (image_popup (py_str W (dict_get kv "title" (JStr "")))
                      (data_uri_of response)).
Proof.
  intros kv url response Hty Hurl Hget.
  assert (Htype : dict_get kv "type" JNull = JStr "image")
    by (unfold dict_get; rewrite Hty; reflexivity).
  unfold create_bookmark_content.
  rewrite (lookup_some_truthy kv _ _ Hty). cbn [negb py_get bind].
  rewrite Htype.
  change (py_eq_str (JStr (num := num) "image") "video") with false.
  change (py_eq_str (JStr (num := num) "image") "image") with true.
  cbv iota. unfold py_getitem. rewrite Hurl. cbn [bind].
  rewrite (fetch_of_response _ response Hget). cbn [bind]. reflexivity.
Qed.

(** X6: video or image content without a [url] key raises
    [KeyError('url')]; nothing is fetched and no popup is built. *)
Theorem create_bookmark_content_missing_url :
  forall (kv : list (string * json num)) t,
    lookup "type" kv = Some t ->
    is_media_type t = true ->
    lookup "url" kv = None ->
    create_bookmark_content W (JObj kv) = Raise (KeyError "url").
Proof.
  intros kv t Hty Hmedia Hurl.
  unfold create_bookmark_content.
  rewrite (lookup_some_truthy kv _ _ Hty). cbn [negb py_get bind].
  unfold dict_get. rewrite Hty. unfold py_getitem. rewrite Hurl. cbn [bind].
  unfold is_media_type in Hmedia.
  destruct (py_eq_str t "video"); [ reflexivity | ].
  cbn [orb] in Hmedia. rewrite Hmedia. reflexivity.
Qed.

(** X7: content that is no video, image or text mapping gives no popup
    and makes no request: a false value (absent, null, an empty mapping,
    an empty string or list, zero) and a mapping of any other type give
    the empty string; a true value that is not a mapping raises
    [AttributeError]. *)
Theorem create_bookmark_content_other :
  forall content : json num,
    (py_truthy content = false -> create_bookmark_content W content = Ok "")
    /\ (forall kv, content = JObj kv -> kv <> [] ->
        is_media_type (dict_get kv "type" JNull) = false ->
        py_eq_str (dict_get kv "type" JNull) "text" = false ->
        create_bookmark_content W content = Ok "")
    /\ (py_truthy content = true -> is_dict content = false ->
        create_bookmark_content W content = Raise AttributeError).
Proof.
  intros content. split; [ | split ].
  - intros H. unfold create_bookmark_content. rewrite H. reflexivity.
  - intros kv -> Hne Hmedia Htext. unfold create_bookmark_content.
    destruct kv as [ | item kv]; [ contradiction | ].
    cbn [py_truthy negb py_get bind].
    unfold is_media_type in Hmedia. apply orb_false_elim in Hmedia as [Hv Hi].
    rewrite Hv, Hi, Htext. reflexivity.
  - intros Ht Hd. unfold create_bookmark_content. rewrite Ht. cbn [negb].
    destruct content; try reflexivity. discriminate Hd.
Qed.

End MediaPopups.

Lemma thumbnail_of_short_link_sample :
  get_youtube_thumbnail_data_uri offline (JStr "https://youtu.be/abc123")
  = fetch_image_data_uri offline (JStr "https://img.youtube.com/vi/abc123/hqdefault.jpg")
  /\ get_youtube_thumbnail_data_uri online (JStr "https://www.youtube.com/watch?v=abc123")
     = fetch_image_data_uri online (JStr "https://img.youtube.com/vi/abc123/hqdefault.jpg").
Proof.
  split.
  - apply (get_youtube_thumbnail_data_uri_fetches_hqdefault
             offline "https" "www.youtube.com" "abc123");
      [ right; left; reflexivity | left; reflexivity | reflexivity
      | left; reflexivity ].
  - apply (get_youtube_thumbnail_data_uri_fetches_hqdefault
             online "https" "www.youtube.com" "abc123");
      [ right; left; reflexivity | left; reflexivity | reflexivity
      | right; left; reflexivity ].
Defined.

Lemma thumbnail_without_id_sample :
  get_youtube_thumbnail_data_uri offline (JStr "https://vimeo.com/76979871") = Ok ""
  /\ get_youtube_thumbnail_data_uri offline (JStr "https://youtu.be/") = Ok "".
Proof.
  split.
  - apply (get_youtube_thumbnail_data_uri_without_id offline
             "https://vimeo.com/76979871"
             {| scheme := "https"; netloc := "vimeo.com"; path := "/76979871";
                params := ""; query := ""; fragment := "" |} eq_refl).
    left. reflexivity.
  - apply (get_youtube_thumbnail_data_uri_without_id offline
             "https://youtu.be/"
             {| scheme := "https"; netloc := "youtu.be"; path := "/";
                params := ""; query := ""; fragment := "" |} eq_refl).
    right. split; reflexivity.
Defined.

Lemma video_popup_without_thumbnail_sample :
  create_bookmark_content offline vimeo_content
  = Ok (video_popup "Flyover" "https://vimeo.com/76979871" "").
Proof.
  exact (proj1 (create_bookmark_content_video_without_thumbnail offline
                  [("type", JStr "video"); ("title", JStr "Flyover");
                   ("url", JStr "https://vimeo.com/76979871")]
                  "https://vimeo.com/76979871"
                  {| scheme := "https"; netloc := "vimeo.com"; path := "/76979871";
                     params := ""; query := ""; fragment := "" |}
                  eq_refl eq_refl eq_refl eq_refl)).
Defined.

Lemma video_popup_thumbnail_sample :
  create_bookmark_content online video_content
  = Ok (video_popup "Flyover" "https://youtu.be/abc123"
                    "data:image/png;base64,iVBORw==")
  /\ create_bookmark_content not_found video_content
     = Ok (video_popup "Flyover" "https://youtu.be/abc123" "").
Proof.
  split.
  - apply (create_bookmark_content_video_thumbnail online
             [("type", JStr "video"); ("title", JStr "Flyover");
              ("url", JStr "https://youtu.be/abc123")]
             "https" "youtube.com" "abc123" "https://youtu.be/abc123"
             {| status_code := 200; headers := [("content-type", "image/png")];
                content := png_signature |});
      first [ reflexivity | left; reflexivity | right; left; reflexivity
            | right; reflexivity ].
  - apply (create_bookmark_content_video_thumbnail not_found
             [("type", JStr "video"); ("title", JStr "Flyover");
              ("url", JStr "https://youtu.be/abc123")]
             "https" "youtube.com" "abc123" "https://youtu.be/abc123"
             {| status_code := 404; headers := [("Content-Type", "text/html")];
                content := [] |});
      first [ reflexivity | left; reflexivity | right; left; reflexivity
            | right; reflexivity ].
Defined.

Lemma image_popup_sample :
  create_bookmark_content online photo_content
  = Ok (image_popup "Summit" "data:image/png;base64,iVBORw==")
  /\ create_bookmark_content not_found photo_content = Ok (image_popup "Summit" "").
Proof.
  split.
  - exact (create_bookmark_content_image_inlined online
             [("type", JStr "image"); ("title", JStr "Summit");
              ("url", JStr "https://example.org/summit.png")]
             (JStr "https://example.org/summit.png")
             {| status_code := 200; headers := [("content-type", "image/png")];
                content := png_signature |} eq_refl eq_refl eq_refl).
  - exact (create_bookmark_content_image_inlined not_found
             [("type", JStr "image"); ("title", JStr "Summit");
              ("url", JStr "https://example.org/summit.png")]
             (JStr "https://example.org/summit.png")
             {| status_code := 404; headers := [("Content-Type", "text/html")];
                content := [] |} eq_refl eq_refl eq_refl).
Defined.

Lemma missing_url_sample :
  create_bookmark_content online
    (JObj [("type", JStr "image"); ("title", JStr "Summit")])
  = Raise (KeyError "url").
Proof.
  exact (create_bookmark_content_missing_url online
           [("type", JStr "image"); ("title", JStr "Summit")] (JStr "image")
           eq_refl eq_refl eq_refl).
Defined.

Lemma other_content_sample :
  create_bookmark_content offline (JNull : json float) = Ok ""
  /\ create_bookmark_content offline (JObj audio_items) = Ok ""
  /\ create_bookmark_content offline (JStr "see the notes" : json float)
     = Raise AttributeError.
Proof.
  split; [ | split ].
  - exact (proj1 (create_bookmark_content_other offline JNull) eq_refl).
  - exact (proj1 (proj2 (create_bookmark_content_other offline (JObj audio_items)))
             audio_items eq_refl ltac:(discriminate) eq_refl eq_refl).
  - exact (proj2 (proj2 (create_bookmark_content_other offline (JStr "see the notes")))
             eq_refl eq_refl).
Defined.

(** ** Video links as they are shared *)

Lemma app_str_nil_r : forall s : string, s ++ "" = s.
Proof. induction s as [ | c s IH]; [ reflexivity | ]. cbn. rewrite IH. reflexivity. Qed.

Lemma split_nonempty : forall x s, split x s <> [].
Proof.
  intros x s. destruct s as [ | d s]; cbn; [ discriminate | ].
  destruct (Ascii.eqb d x); [ discriminate | ]. destruct (split x s); discriminate.
Qed.

Section VideoIdPrefix.

Variable s : string.
Hypothesis Hs : forallb_str id_char s = true.

Lemma mem_char_id_app :
  forall x r, id_char x = false -> mem_char x (s ++ r) = mem_char x r.
Proof.
  intros x r Hx. induction s as [ | c s' IH]; [ reflexivity | ].
  simpl in *. apply andb_prop in Hs as [Hc Hs'].
  rewrite Ascii.eqb_sym, (id_char_eqb c x Hc Hx). simpl. auto.
Qed.

Lemma partition_id_app :
  forall x r, id_char x = false ->
    partition x (s ++ r)
    = match partition x r with
      | Some (b, a) => Some (s ++ b, a)
      | None => None
      end.
Proof.
  intros x r Hx. induction s as [ | c s' IH].
  - simpl. destruct (partition x r) as [[b a] | ]; reflexivity.
  - simpl in *. apply andb_prop in Hs as [Hc Hs'].
    rewrite (id_char_eqb c x Hc Hx), (IH Hs').
    destruct (partition x r) as [[b a] | ]; reflexivity.
Qed.

Lemma split_id_app :
  forall x r, id_char x = false ->
    split x (s ++ r)
    = match split x r with
      | f :: fs => (s ++ f) :: fs
      | [] => [s]
      end.
Proof.
  intros x r Hx. induction s as [ | c s' IH].
  - simpl. destruct (split x r) as [ | f fs] eqn:E; [ | reflexivity ].
    destruct (split_nonempty x r E).
  - simpl in *. apply andb_prop in Hs as [Hc Hs'].
    rewrite (id_char_eqb c x Hc Hx), (IH Hs').
    destruct (split x r) as [ | f fs]; reflexivity.
Qed.

Lemma remove_chars_id_app :
  forall cs r, forallb_str (fun x => negb (id_char x)) cs = true ->
    remove_chars cs (s ++ r) = s ++ remove_chars cs r.
Proof.
  intros cs r Hcs. induction s as [ | c s' IH]; [ reflexivity | ].
  simpl in *. apply andb_prop in Hs as [Hc Hs'].
  assert (Hm : mem_char c cs = false).
  { clear - Hc Hcs. induction cs as [ | d cs IH]; [ reflexivity | ].
    simpl in *. apply andb_prop in Hcs as [Hd Hcs].
    apply negb_true_iff in Hd. rewrite (id_char_eqb c d Hc Hd). simpl. auto. }
  rewrite Hm, (IH Hs'). reflexivity.
Qed.

End VideoIdPrefix.

Ltac id_app_rewrite H :=
  repeat first
    [ rewrite (remove_chars_id_app _ H) by reflexivity
    | rewrite (partition_id_app _ H) by reflexivity
    | rewrite (mem_char_id_app _ H) by reflexivity
    | rewrite (split_id_app _ H) by reflexivity ].

Ltac crunch2 Hid Ht Hne :=
  repeat (progress (cbn; id_rewrite Hid; id_rewrite Ht;
                    id_app_rewrite Hid; id_app_rewrite Ht;
                    rewrite ?app_str_nil_r, ?Hne;
                    unfold extract_parsed, parse_qsl, unquote)).

Section SharedLinks.

Context {num : Type} {N : PyNum num} (W : World num).

(** X8: the id is found in a link as it is shared: a start time in the
    query or the fragment, other parameters before or after [v], and
    capitals in the host do not change the result. *)
Theorem extract_youtube_video_id_decorated :
  forall id t u,
    is_video_id id = true -> is_video_id t = true ->
    In u (decorated_video_urls id t) ->
    extract_youtube_video_id W (JStr u) = Ok (Some id).
Proof.
  intros id t u Hv Ht Hu.
  destruct (is_video_id_chars id Hv) as [Hne Hid].
  destruct (is_video_id_chars t Ht) as [Htne Htid].
  apply String.eqb_neq in Hne. apply String.eqb_neq in Htne.
  unfold decorated_video_urls in Hu.
  repeat (destruct Hu as [<- | Hu]); [ .. | destruct Hu ];
    unfold extract_youtube_video_id, urlparse.
  - crunch2 Hid Htid Hne. reflexivity.
  - crunch2 Hid Htid Hne. reflexivity.
  - crunch2 Hid Htid Hne. rewrite ?Htne. crunch2 Hid Htid Hne. reflexivity.
  - crunch2 Hid Htid Hne. rewrite ?Htne. crunch2 Hid Htid Hne. reflexivity.
  - crunch2 Hid Htid Hne. reflexivity.
  - crunch2 Hid Htid Hne. destruct id; reflexivity.
  - crunch2 Hid Htid Hne. reflexivity.
Qed.

(** X9: no id is found, and no exception is raised, on a link without
    a scheme, on the mobile or the no-cookie host, under [/shorts/] or
    [/live/], or with [/Watch] or [V=] in capitals. *)
Theorem extract_youtube_video_id_unrecognised :
  forall id u,
    is_video_id id = true ->
    In u (unrecognised_video_urls id) ->
    extract_youtube_video_id W (JStr u) = Ok None.
Proof.
  intros id u Hv Hu.
  destruct (is_video_id_chars id Hv) as [Hne Hid].
  apply String.eqb_neq in Hne.
  unfold unrecognised_video_urls in Hu.
  repeat (destruct Hu as [<- | Hu]); [ .. | destruct Hu ];
    unfold extract_youtube_video_id, urlparse;
    crunch2 Hid Hid Hne; reflexivity.
Qed.

End SharedLinks.

(** ** What a rendered bookmark leaves on the map *)

Ltac unbind H :=
  match type of H with
  | context [match ?x with _ => _ end] =>
      lazymatch x with
      | context [match _ with _ => _ end] => fail
      | _ => destruct x eqn:?; cbv beta iota in H; try discriminate H
      end
  end.

Ltac unbind_both H :=
  match type of H with
  | context [match ?x with _ => _ end] =>
      lazymatch x with
      | context [match _ with _ => _ end] => fail
      | _ => destruct x eqn:?; cbv beta iota in H |- *; try discriminate H
      end
  end.

Section Rendered.

Context {num : Type} {N : PyNum num} (W : World num).

(** A call that returns was given a mapping with a mapping (or no)
    geometry, and its content was built. *)
Lemma add_bookmark_to_map_ok_inv :
  forall (b : json num) m center e m',
    add_bookmark_to_map W b m center = Ok (e, m') ->
    exists bm g popup_content,
      b = JObj bm
      /\ dict_get bm "geometry" (JObj []) = JObj g
      /\ create_bookmark_content W (dict_get bm "content" (JObj [])) = Ok popup_content.
Proof.
  intros b m center e m' H. unfold add_bookmark_to_map in H.
  destruct b as [ | ? | ? | ? | ? | bm ]; try discriminate H.
  cbn [py_get bind] in H.
  destruct (dict_get bm "geometry" (JObj [])) as [ | ? | ? | ? | ? | g ] eqn:Hg;
    try discriminate H.
  cbn [py_get bind] in H.
  destruct (create_bookmark_content W (dict_get bm "content" (JObj [])))
    as [popup_content | x] eqn:Hpop; [ | discriminate H ].
  exists bm, g, popup_content. repeat split; assumption.
Qed.

Lemma geometry_readings :
  forall (bm g : list (string * json num)),
    dict_get bm "geometry" (JObj []) = JObj g ->
    geometry_type (JObj bm) = Ok (dict_get g "type" JNull)
    /\ geometry_coordinates (JObj bm) = Ok (dict_get g "coordinates" (JArr [])).
Proof.
  intros bm g Hg. unfold geometry_type, geometry_coordinates.
  cbn [py_get bind]. rewrite Hg. split; reflexivity.
Qed.

(** X10: whenever a Point bookmark is rendered, its coordinates were a
    pair [lon, lat], the entry points at that very point ([lat] is the
    second coordinate), the features of the map are those it had followed
    by one marker at [(lat, lon)] with the built content as popup, the
    icon of the content type and the title (or 'Untitled') as tooltip, and
    nothing is printed. *)
Theorem add_bookmark_to_map_point_rendered :
  forall (bm : list (string * json num)) m center e m',
    geometry_type (JObj bm) = Ok (JStr "Point") ->
    add_bookmark_to_map W (JObj bm) m center = Ok (e, m') ->
    exists coordinates lon_ lat_ popup_content custom_icon,
      geometry_coordinates (JObj bm) = Ok coordinates
      /\ py_unpack2 coordinates = Ok (lon_, lat_)
      /\ lat e = lat_ /\ lon e = lon_
      /\ create_bookmark_content W (dict_get bm "content" (JObj [])) = Ok popup_content
      /\ icon_of_content (dict_get bm "content" (JObj [])) = Ok custom_icon
      /\ features m'
         = List.app (features m)
             [Marker (lat_, lon_)
                     {| html := popup_content; max_width := 600 |}
                     custom_icon (dict_get bm "title" (JStr "Untitled"))]
      /\ stdout m' = stdout m.
Proof.
  intros bm m center e m' Hty H.
  unfold icon_of_content.
  destruct (add_bookmark_to_map_ok_inv _ _ _ _ _ H) as [bm' [g [popup [Hb [Hg Hpop]]]]].
  injection Hb as <-.
  destruct (geometry_readings bm g Hg) as [Hty' Hco].
  rewrite Hty in Hty'. injection Hty' as Htype.
  unfold add_bookmark_to_map in H. cbn [py_get bind] in H.
  rewrite Hg in H. cbn [py_get bind] in H. rewrite Hpop in H. cbn [bind] in H.
  rewrite <- Htype in H.
  change (py_eq_str (JStr (num := num) "Point") "Point") with true in H.
  cbv iota in H. cbv beta iota delta [bind check] in H.
  repeat unbind H.
  injection H as <- <-.
  exists (dict_get g "coordinates" (JArr [])). do 4 eexists.
  repeat split; try eassumption; try reflexivity.
Qed.

Lemma nth_error_swapped :
  forall (pairs : list (json num * json num)) k location,
    nth_error (map swap pairs) k = Some location ->
    exists lon_ lat_, nth_error pairs k = Some (lon_, lat_) /\ location = (lat_, lon_).
Proof.
  intros pairs k location H. rewrite nth_error_map in H.
  destruct (nth_error pairs k) as [[lo la] | ]; [ | discriminate H ].
  injection H as <-. exists lo, la. split; reflexivity.
Qed.

(** X11: whenever a LineString bookmark is rendered, the entry points at
    the vertex of index [floor(n / 2)] of its [n] vertices: [lat] is the
    second coordinate of that vertex and [lon] the first. *)
Theorem add_bookmark_to_map_linestring_anchor :
  forall (bm : list (string * json num)) m center e m',
    geometry_type (JObj bm) = Ok (JStr "LineString") ->
    add_bookmark_to_map W (JObj bm) m center = Ok (e, m') ->
    exists coordinates pairs lon_ lat_,
      geometry_coordinates (JObj bm) = Ok coordinates
      /\ lon_lat_pairs coordinates = Ok pairs
      /\ nth_error pairs (Nat.div (length pairs) 2) = Some (lon_, lat_)
      /\ lat e = lat_ /\ lon e = lon_.
Proof.
  intros bm m center e m' Hty H.
  destruct (add_bookmark_to_map_ok_inv _ _ _ _ _ H) as [bm' [g [popup [Hb [Hg Hpop]]]]].
  injection Hb as <-.
  destruct (geometry_readings bm g Hg) as [Hty' Hco].
  rewrite Hty in Hty'. injection Hty' as Htype.
  unfold add_bookmark_to_map in H. cbn [py_get bind] in H.
  rewrite Hg in H. cbn [py_get bind] in H. rewrite Hpop in H. cbn [bind] in H.
  rewrite <- Htype in H.
  change (py_eq_str (JStr (num := num) "LineString") "Point") with false in H.
  change (py_eq_str (JStr (num := num) "LineString") "LineString") with true in H.
  cbv iota in H.
  destruct (lon_lat_pairs (dict_get g "coordinates" (JArr []))) as [pairs | x] eqn:Hpairs;
    [ | discriminate H ].
  cbn [bind] in H. cbv beta iota delta [bind check] in H.
  destruct (nth_error (map swap pairs) (Nat.div (length (map swap pairs)) 2))
    as [location | ] eqn:Hmid.
  - rewrite length_map in Hmid.
    destruct (nth_error_swapped pairs _ location Hmid) as [lo [la [Hnth ->]]].
    repeat unbind H; injection H as <- <-;
      exists (dict_get g "coordinates" (JArr [])), pairs, lo, la;
      repeat split; try assumption; reflexivity.
  - repeat unbind H.
Qed.

(** X12: whenever a Polygon bookmark is rendered, nothing is printed
    and the features of the map are those it had followed by one polygon
    drawn on the first ring of the coordinates only (the other rings are
    not read), and its popup is the built content followed by
    [<p>Area: N.NN square miles</p>], or the minimal frame under the title
    when the content is empty; the area is the projected area of that
    ring over 2.59e6. *)
Theorem add_bookmark_to_map_polygon_rendered :
  forall (bm : list (string * json num)) m center e m',
    geometry_type (JObj bm) = Ok (JStr "Polygon") ->
    add_bookmark_to_map W (JObj bm) m center = Ok (e, m') ->
    exists coordinates ring pairs area content_html st,
      geometry_coordinates (JObj bm) = Ok coordinates
      /\ py_getitem0 coordinates = Ok ring
      /\ lon_lat_pairs ring = Ok pairs
      /\ projected_area W pairs = Ok area
      /\ create_bookmark_content W (dict_get bm "content" (JObj [])) = Ok content_html
      /\ dict_get bm "style" (JObj []) = JObj st
      /\ features m'
         = List.app (features m)
             [Polygon (map swap pairs)
                (dict_get st "color" (JStr "red"))
                (dict_get st "weight" (JNum (num_of_nat 2)))
                (dict_get st "fillColor" (JStr "red"))
                (dict_get st "fillOpacity" (JNum (num_dec 5 (-1))))
                (dict_get bm "title" (JStr "Untitled"))
                {| html :=
                     measured_popup content_html
                       (py_str W (dict_get bm "title" (JStr "Untitled")))
                       ("Area: " ++ num_fmt2f (num_truediv area (num_dec 259 4))
                        ++ " square miles");
                   max_width := 600 |}]
      /\ stdout m' = stdout m.
Proof.
  intros bm m center e m' Hty H.
  destruct (add_bookmark_to_map_ok_inv _ _ _ _ _ H) as [bm' [g [popup [Hb [Hg Hpop]]]]].
  injection Hb as <-.
  destruct (geometry_readings bm g Hg) as [Hty' Hco].
  rewrite Hty in Hty'. injection Hty' as Htype.
  unfold add_bookmark_to_map in H. cbn [py_get bind] in H.
  rewrite Hg in H. cbn [py_get bind] in H. rewrite Hpop in H. cbn [bind] in H.
  rewrite <- Htype in H.
  change (py_eq_str (JStr (num := num) "Polygon") "Point") with false in H.
  change (py_eq_str (JStr (num := num) "Polygon") "LineString") with false in H.
  change (py_eq_str (JStr (num := num) "Polygon") "Polygon") with true in H.
  cbv iota in H.
  destruct (py_getitem0 (dict_get g "coordinates" (JArr []))) as [ring | x] eqn:Hring;
    [ | discriminate H ].
  cbn [bind] in H.
  destruct (lon_lat_pairs ring) as [pairs | x] eqn:Hpairs; [ | discriminate H ].
  cbn [bind] in H.
  destruct (dict_get bm "style" (JObj [])) as [ | ? | ? | ? | ? | st ] eqn:Hstyle;
    try discriminate H.
  cbn [py_get bind] in H.
  destruct (check (folium_locations W (map swap pairs))) as [[] | x];
    [ | discriminate H ].
  cbn [bind] in H. unfold calculate_polygon_area in H.
  rewrite Hring in H. cbn [bind] in H. rewrite Hpairs in H. cbn [bind] in H.
  destruct (projected_area W pairs) as [area | x] eqn:Harea; [ | discriminate H ].
  cbn [bind] in H.
  destruct (py_mean (map fst (map swap pairs))) as [mean_lat | x]; [ | discriminate H ].
  cbn [bind] in H.
  destruct (py_mean (map snd (map swap pairs))) as [mean_lon | x]; [ | discriminate H ].
  cbn [bind] in H.
  injection H as <- <-.
  exists (dict_get g "coordinates" (JArr [])), ring, pairs, area, popup, st.
  repeat split; try assumption.
  cbn [add_to features]. unfold measured_popup.
  destruct (String.eqb popup ""); cbn [negb];
    rewrite <- ?app_str_assoc; reflexivity.
Qed.

(** The page after a call that returns: one feature more, or one
    diagnostic more, after what was there. *)
Lemma add_bookmark_to_map_frame :
  forall (b : json num) m center e m',
    add_bookmark_to_map W b m center = Ok (e, m') ->
    if is_supported b
    then exists f, m' = add_to f m
    else m' = print (unsupported_line W b) m
         /\ lat e = fst center /\ lon e = snd center.
Proof.
  intros b m center e m' H.
  destruct (add_bookmark_to_map_ok_inv _ _ _ _ _ H) as [bm [g [popup [-> [Hg Hpop]]]]].
  destruct (geometry_readings bm g Hg) as [Hty _].
  unfold is_supported, unsupported_line. rewrite Hty. unfold supported_geometry.
  unfold add_bookmark_to_map in H. cbn [py_get bind] in H.
  rewrite Hg in H. cbn [py_get bind] in H. rewrite Hpop in H. cbn [bind] in H.
  destruct (py_eq_str (dict_get g "type" JNull) "Point");
    [ | destruct (py_eq_str (dict_get g "type" JNull) "LineString");
        [ | destruct (py_eq_str (dict_get g "type" JNull) "Polygon") ] ];
    cbn [orb]; cbv beta iota delta [bind check] in H;
    repeat unbind H; injection H as <- <-; try (eexists; reflexivity).
  repeat split; reflexivity.
Qed.

(** X13: a call that returns keeps what was on the page and adds exactly
    one thing: for a Point, LineString or Polygon one feature after the
    existing ones and no output; for any other geometry type the line
    [Unsupported geometry type: <type>] after the existing output and no
    feature, the entry pointing at the fallback center. *)
Theorem add_bookmark_to_map_adds_one :
  forall (b : json num) m center e m',
    add_bookmark_to_map W b m center = Ok (e, m') ->
    if is_supported b
    then exists f, features m' = (features m ++ [f])%list /\ stdout m' = stdout m
    else features m' = features m
         /\ stdout m' = (stdout m ++ [unsupported_line W b])%list
         /\ lat e = fst center /\ lon e = snd center.
Proof.
  intros b m center e m' H.
  pose proof (add_bookmark_to_map_frame b m center e m' H) as F.
  destruct (is_supported b).
  - destruct F as [f ->]. exists f. split; reflexivity.
  - destruct F as [-> [Hlat Hlon]]. repeat split; assumption.
Qed.

(** X14: the entry of a rendered bookmark carries the bookmark's zoom
    and tile layer as they are, whatever the geometry type, with 13 and
    'Positron' when the key is missing. *)
Theorem add_bookmark_to_map_entry_view :
  forall (bm : list (string * json num)) m center e m',
    add_bookmark_to_map W (JObj bm) m center = Ok (e, m') ->
    zoom e = dict_get bm "zoom" (JNum (num_of_nat 13))
    /\ tile_layer e = dict_get bm "tile_layer" (JStr "Positron").
Proof.
  intros bm m center e m' H.
  destruct (add_bookmark_to_map_ok_inv _ _ _ _ _ H) as [bm' [g [popup [Hb [Hg Hpop]]]]].
  injection Hb as <-.
  unfold add_bookmark_to_map in H. cbn [py_get bind] in H.
  rewrite Hg in H. cbn [py_get bind] in H. rewrite Hpop in H. cbn [bind] in H.
  cbv beta iota delta [bind check] in H.
  repeat unbind H; injection H as <- <-; split; reflexivity.
Qed.

Lemma geometry_coordinates_inv :
  forall (bm : list (string * json num)) t c,
    geometry_type (JObj bm) = Ok t ->
    geometry_coordinates (JObj bm) = Ok c ->
    exists g, dict_get bm "geometry" (JObj []) = JObj g
              /\ dict_get g "type" JNull = t
              /\ dict_get g "coordinates" (JArr []) = c.
Proof.
  intros bm t c Hty Hco.
  destruct (geometry_type_inv bm t Hty) as [g [Hg ->]].
  destruct (geometry_readings bm g Hg) as [_ Hco'].
  rewrite Hco in Hco'. injection Hco' as ->.
  exists g. repeat split. exact Hg.
Qed.

(** X15: a Point whose coordinates are a list of any length but two
    (none, one, or three with an altitude) is not rendered: the call raises
    [ValueError] when the content is built, the exception of the content
    builder otherwise. *)
Theorem add_bookmark_to_map_point_arity :
  forall (bm : list (string * json num)) m center (l : list (json num)),
    geometry_type (JObj bm) = Ok (JStr "Point") ->
    geometry_coordinates (JObj bm) = Ok (JArr l) ->
    length l <> 2 ->
    add_bookmark_to_map W (JObj bm) m center
    = Raise (raised_after_content W bm ValueError).
Proof.
  intros bm m center l Hty Hco Hlen.
  destruct (geometry_coordinates_inv bm _ _ Hty Hco) as [g [Hg [Htype Hcoord]]].
  unfold add_bookmark_to_map, raised_after_content. cbn [py_get bind].
  rewrite Hg. cbn [py_get bind].
  destruct (create_bookmark_content W (dict_get bm "content" (JObj [])))
    as [popup | x]; cbn [bind]; [ | reflexivity ].
  rewrite Htype, Hcoord.
  change (py_eq_str (JStr (num := num) "Point") "Point") with true. cbv iota.
  destruct l as [ | a [ | b [ | c l ] ] ]; try reflexivity.
  contradiction Hlen. reflexivity.
Qed.

(** X16: a Point, LineString or Polygon without coordinates (the key is
    missing, or is the empty list) is never rendered: the call raises. *)
Theorem add_bookmark_to_map_without_coordinates :
  forall (bm : list (string * json num)) m center,
    is_supported (JObj bm) = true ->
    geometry_coordinates (JObj bm) = Ok (JArr []) ->
    exists x, add_bookmark_to_map W (JObj bm) m center = Raise x.
Proof.
  intros bm m center Hsup Hco.
  unfold is_supported in Hsup.
  destruct (geometry_type (JObj bm)) as [t | x] eqn:Hty; [ | discriminate Hsup ].
  destruct (geometry_coordinates_inv bm _ _ Hty Hco) as [g [Hg [Htype Hcoord]]].
  unfold add_bookmark_to_map. cbn [py_get bind].
  rewrite Hg. cbn [py_get bind].
  destruct (create_bookmark_content W (dict_get bm "content" (JObj [])))
    as [popup | x]; cbn [bind]; [ | eexists; reflexivity ].
  rewrite Htype, Hcoord. unfold supported_geometry in Hsup.
  destruct (py_eq_str t "Point"); [ eexists; reflexivity | ].
  destruct (py_eq_str t "LineString").
  - unfold lon_lat_pairs. cbn [py_iter mapM bind map length Nat.div nth_error].
    destruct (dict_get bm "style" (JObj [])); cbn [py_get bind];
      try (eexists; reflexivity).
    destruct (check (folium_locations W [])) as [[] | x]; cbn [bind];
      [ | eexists; reflexivity ].
    destruct (calculate_line_length W (JArr [])) as [len | x]; cbn [bind];
      [ | eexists; reflexivity ].
    eexists; reflexivity.
  - destruct (py_eq_str t "Polygon"); [ | discriminate Hsup ].
    eexists; reflexivity.
Qed.

Lemma lon_lat_pairs_vertex_arity :
  forall (pre post v : list (json num)) ps,
    mapM py_unpack2 pre = Ok ps -> length v <> 2 ->
    lon_lat_pairs (JArr (pre ++ JArr v :: post)%list) = Raise ValueError.
Proof.
  intros pre post v ps Hpre Hv. unfold lon_lat_pairs. cbn [py_iter bind].
  revert ps Hpre. induction pre as [ | a pre IH]; intros ps Hpre.
  - cbn [app mapM py_unpack2 py_iter bind].
    destruct v as [ | x [ | y [ | z v ] ] ]; try reflexivity.
    contradiction Hv. reflexivity.
  - cbn [app mapM] in *. destruct (py_unpack2 a) as [p | x]; [ | discriminate Hpre ].
    cbn [bind] in *.
    destruct (mapM py_unpack2 pre) as [l | x]; [ | discriminate Hpre ].
    rewrite (IH l eq_refl). reflexivity.
Qed.

(** X17: a vertex with any number of coordinates but two (an altitude
    after longitude and latitude, say) makes both measurements raise
    [ValueError] before the geometry is built, when the vertices before it
    are pairs; for the area the vertex is looked for in the first ring. *)
Theorem calculate_line_length_vertex_arity :
  forall (pre post v holes : list (json num)) ps,
    mapM py_unpack2 pre = Ok ps -> length v <> 2 ->
    calculate_line_length W (JArr (pre ++ JArr v :: post)%list) = Raise ValueError
    /\ calculate_polygon_area W (JArr (JArr (pre ++ JArr v :: post)%list :: holes))
       = Raise ValueError.
Proof.
  intros pre post v holes ps Hpre Hv.
  unfold calculate_line_length, calculate_polygon_area. cbn [py_getitem0 bind].
  rewrite (lon_lat_pairs_vertex_arity pre post v ps Hpre Hv). split; reflexivity.
Qed.

(** X18: a LineString with such a vertex, and a Polygon with such a
    vertex in its first ring, are not rendered: the call raises
    [ValueError] when the content is built, the exception of the content
    builder otherwise. *)
Theorem add_bookmark_to_map_vertex_arity :
  forall (bm : list (string * json num)) m center
         (pre post v holes : list (json num)) ps,
    mapM py_unpack2 pre = Ok ps -> length v <> 2 ->
    (geometry_type (JObj bm) = Ok (JStr "LineString")
     /\ geometry_coordinates (JObj bm) = Ok (JArr (pre ++ JArr v :: post)%list))
    \/ (geometry_type (JObj bm) = Ok (JStr "Polygon")
        /\ geometry_coordinates (JObj bm)
           = Ok (JArr (JArr (pre ++ JArr v :: post)%list :: holes))) ->
    add_bookmark_to_map W (JObj bm) m center
    = Raise (raised_after_content W bm ValueError).
Proof.
  intros bm m center pre post v holes ps Hpre Hv [[Hty Hco] | [Hty Hco]];
    destruct (geometry_coordinates_inv bm _ _ Hty Hco) as [g [Hg [Htype Hcoord]]];
    unfold add_bookmark_to_map, raised_after_content; cbn [py_get bind];
    rewrite Hg; cbn [py_get bind];
    (destruct (create_bookmark_content W (dict_get bm "content" (JObj [])))
      as [popup | x]; cbn [bind]; [ | reflexivity ]);
    rewrite Htype, Hcoord.
  - change (py_eq_str (JStr (num := num) "LineString") "Point") with false.
    change (py_eq_str (JStr (num := num) "LineString") "LineString") with true.
    cbv iota. rewrite (lon_lat_pairs_vertex_arity pre post v ps Hpre Hv).
    reflexivity.
  - change (py_eq_str (JStr (num := num) "Polygon") "Point") with false.
    change (py_eq_str (JStr (num := num) "Polygon") "LineString") with false.
    change (py_eq_str (JStr (num := num) "Polygon") "Polygon") with true.
    cbv iota. cbn [py_getitem0 bind].
    rewrite (lon_lat_pairs_vertex_arity pre post v ps Hpre Hv).
    reflexivity.
Qed.

(** X19: every icon is one of the four names of the icon map under the
    fixed prefix and colours, a type that is not a key of the map (a string
    or not) gets [info-sign], and only a list or a mapping as type raises
    ([TypeError], not hashable). *)
Theorem create_custom_icon_range :
  forall icon_type : json num,
    match create_custom_icon icon_type with
    | Ok i =>
        In (icon i) icon_names
        /\ prefix i = "fa" /\ color i = "blue" /\ icon_color i = "#000"
        /\ (py_eq_str icon_type "video" = false ->
            py_eq_str icon_type "image" = false ->
            py_eq_str icon_type "text" = false ->
            icon i = "info-sign")
    | Raise x =>
        x = TypeError
        /\ ((exists l, icon_type = JArr l) \/ (exists kv, icon_type = JObj kv))
    end.
Proof.
  intros icon_type. unfold create_custom_icon, icon_names.
  destruct icon_type as [ | b | n | t | l | kv ]; cbn [bind];
    try (repeat split; cbn; auto; fail).
  - unfold icon_map. cbn [assoc py_eq_str].
    destruct (String.eqb_spec "video" t) as [<- | Hv];
      [ cbn; repeat split; auto; discriminate | ].
    destruct (String.eqb_spec "image" t) as [<- | Hi];
      [ cbn; repeat split; auto; discriminate | ].
    destruct (String.eqb_spec "text" t) as [<- | Ht];
      [ cbn; repeat split; auto; discriminate | ].
    destruct (String.eqb "info-sign" t); cbn; repeat split; auto.
  - split; [ reflexivity | left; exists l; reflexivity ].
  - split; [ reflexivity | right; exists kv; reflexivity ].
Qed.

(** X20: a Point does not read the style: two bookmarks that agree on
    every key but [style] give the same outcome when the geometry type is
    Point, whatever is under [style], a bad value included. *)
Theorem add_bookmark_to_map_point_ignores_style :
  forall (bm bm' : list (string * json num)) m center,
    (forall k, k <> "style" -> lookup k bm' = lookup k bm) ->
    geometry_type (JObj bm) = Ok (JStr "Point") ->
    add_bookmark_to_map W (JObj bm') m center
    = add_bookmark_to_map W (JObj bm) m center.
Proof.
  intros bm bm' m center Hsame Hty.
  assert (D : forall k d, k <> "style" -> dict_get bm' k d = dict_get bm k d).
  { intros k d Hk. unfold dict_get. rewrite (Hsame k Hk). reflexivity. }
  destruct (geometry_type_inv bm _ Hty) as [g [Hg Htype]].
  unfold add_bookmark_to_map. cbn [py_get bind].
  rewrite (D "geometry"), (D "content"), (D "title"), (D "tile_layer"), (D "zoom")
    by discriminate.
  rewrite Hg. cbn [py_get bind]. rewrite <- Htype.
  change (py_eq_str (JStr (num := num) "Point") "Point") with true. cbv iota.
  reflexivity.
Qed.

End Rendered.

(** ** What the page assembler makes of its bookmarks *)

Section Assembled.

Context {num : Type} {N : PyNum num} (W : World num).

(** An exception of the renderer does not depend on the page either. *)
Lemma add_bookmark_to_map_raise_any_state :
  forall (b : json num) (m1 m2 : page_state) center x,
    add_bookmark_to_map W b m1 center = Raise x ->
    add_bookmark_to_map W b m2 center = Raise x.
Proof.
  intros b m1 m2 center x H.
  unfold add_bookmark_to_map in *.
  cbv beta iota delta [bind] in H |- *.
  repeat unbind_both H.
  all: exact H.
Qed.

(** X21: what a bookmark gives does not depend on what is on the page:
    on any two pages the call returns the same entry, or raises the same
    exception. *)
Theorem add_bookmark_to_map_page_independent :
  forall (b : json num) (m1 m2 : page_state) center,
    same_outcome (add_bookmark_to_map W b m1 center)
                 (add_bookmark_to_map W b m2 center).
Proof.
  intros b m1 m2 center. unfold same_outcome.
  destruct (add_bookmark_to_map W b m1 center) as [[e m1'] | x] eqn:H1.
  - destruct (add_bookmark_to_map_any_state W b m1 m2 center e m1' H1) as [m2' ->].
    reflexivity.
  - rewrite (add_bookmark_to_map_raise_any_state b m1 m2 center x H1). reflexivity.
Qed.

Lemma collect_locations_first_failure :
  forall center pre b post x i m,
    Forall (renders W center) pre ->
    add_bookmark_to_map W b empty_page center = Raise x ->
    collect_locations W i (pre ++ b :: post)%list m center = Raise x.
Proof.
  intros center pre b post x. induction pre as [ | a pre IH]; intros i m Hall Hb.
  - cbn [app collect_locations].
    rewrite (add_bookmark_to_map_raise_any_state b empty_page m center x Hb).
    reflexivity.
  - inversion Hall as [ | a0 pre0 [e [ma Ha]] Hrest ]; subst.
    destruct (add_bookmark_to_map_any_state W a empty_page m center e ma Ha)
      as [m1 Hm1].
    cbn [app collect_locations]. rewrite Hm1. cbn [bind].
    rewrite (IH (S i) m1 Hrest Hb). reflexivity.
Qed.

(** X22: the page is all or nothing: when the bookmarks before one are
    rendered and that one raises, [create_map] raises the same exception,
    whatever comes after it. *)
Theorem create_map_first_failure :
  forall (pre post : list (json num)) (b : json num) center zoom x,
    folium_location W center = None ->
    Forall (renders W center) pre ->
    add_bookmark_to_map W b empty_page center = Raise x ->
    create_map W (pre ++ b :: post)%list center zoom = Raise x.
Proof.
  intros pre post b center zoom x Hcenter Hpre Hb.
  unfold create_map. rewrite Hcenter. cbn [check bind]. fold (@empty_page num).
  rewrite (collect_locations_first_failure center pre b post x 0 empty_page Hpre Hb).
  reflexivity.
Qed.

Lemma nav_link_list_untitled :
  forall (pre post : list (json num)) bm i,
    Forall titled pre -> lookup "title" bm = None ->
    nav_link_list W i (pre ++ JObj bm :: post)%list = Raise (KeyError "title").
Proof.
  induction pre as [ | a pre IH]; intros post bm i Hall Hbm.
  - cbn [app nav_link_list py_getitem]. rewrite Hbm. reflexivity.
  - inversion Hall as [ | a0 pre0 [t Ht] Hrest ]; subst.
    cbn [app nav_link_list]. rewrite Ht. cbn [bind].
    rewrite (IH post bm (S i) Hrest Hbm). reflexivity.
Qed.

(** X23: a bookmark without a title is rendered (its tooltip is
    'Untitled'), but the page is not: when every bookmark is rendered and
    the first one without a [title] key comes after titled ones,
    [create_map] raises [KeyError('title')]. *)
Theorem create_map_untitled :
  forall (pre post : list (json num)) bm center zoom,
    folium_location W center = None ->
    Forall (renders W center) (pre ++ JObj bm :: post)%list ->
    Forall titled pre ->
    lookup "title" bm = None ->
    create_map W (pre ++ JObj bm :: post)%list center zoom = Raise (KeyError "title").
Proof.
  intros pre post bm center zoom Hcenter Hrender Htitled Hbm.
  destruct (collect_locations_indexed W center _ 0 empty_page Hrender)
    as [locs [m' [Hcol _]]].
  unfold create_map. rewrite Hcenter. cbn [check bind]. fold (@empty_page num).
  rewrite Hcol. cbn [bind].
  rewrite (nav_link_list_untitled pre post bm 0 Htitled Hbm). reflexivity.
Qed.




Lemma collect_locations_renders :
  forall center bookmarks i m locs m',
    collect_locations W i bookmarks m center = Ok (locs, m') ->
    Forall (renders W center) bookmarks.
Proof.
  intros center. induction bookmarks as [ | b rest IH]; intros i m locs m' H;
    [ constructor | ].
  cbn [collect_locations] in H.
  destruct (add_bookmark_to_map W b m center) as [[e m1] | x] eqn:Hb;
    [ | discriminate H ].
  cbn [bind] in H.
  destruct (collect_locations W (S i) rest m1 center) as [[locs1 m2] | x] eqn:Hrest;
    [ | discriminate H ].
  constructor; [ | exact (IH (S i) m1 locs1 m2 Hrest) ].
  destruct (add_bookmark_to_map_any_state W b m empty_page center e m1 Hb) as [m0 H0].
  exists e, m0. exact H0.
Qed.

Lemma nav_link_list_titled :
  forall bookmarks i links,
    nav_link_list W i bookmarks = Ok links -> Forall titled bookmarks.
Proof.
  induction bookmarks as [ | b rest IH]; intros i links H; [ constructor | ].
  cbn [nav_link_list] in H.
  destruct (py_getitem b "title") as [t | x] eqn:Ht; [ | discriminate H ].
  cbn [bind] in H.
  destruct (nav_link_list W (S i) rest) as [ls | x] eqn:Hrest; [ | discriminate H ].
  constructor; [ exists t; exact Ht | exact (IH (S i) ls Hrest) ].
Qed.

(** X25: a page is returned only if folium accepts the center, every
    bookmark is rendered on its own, and every bookmark has a title. *)
Theorem create_map_returns_only_if :
  forall (bookmarks : list (json num)) center zoom pg,
    create_map W bookmarks center zoom = Ok pg ->
    folium_location W center = None
    /\ Forall (renders W center) bookmarks
    /\ Forall titled bookmarks.
Proof.
  intros bookmarks center zoom pg H. unfold create_map in H.
  destruct (folium_location W center) as [x | ]; [ discriminate H | ].
  cbn [check bind] in H.
  destruct (collect_locations W 0 bookmarks _ center) as [[locs m'] | x] eqn:Hcol;
    [ | discriminate H ].
  cbn [bind] in H.
  destruct (nav_link_list W 0 bookmarks) as [links | x] eqn:Hlinks;
    [ | discriminate H ].
  split; [ reflexivity | split ].
  - exact (collect_locations_renders center bookmarks 0 _ locs m' Hcol).
  - exact (nav_link_list_titled bookmarks 0 links Hlinks).
Qed.

End Assembled.

(** ** The further properties on the sample bookmarks *)

Lemma add_bookmark_to_map_point_rendered_sample :
  exists e m',
    add_bookmark_to_map online (JObj text_point_items) empty_page sample_center
    = Ok (e, m')
    /\ m' = {| features :=
                [Marker (JNum (float_dec 395 (-1)), JNum (float_dec (-1105) (-1)))
                        {| html := text_popup "T" "hello"; max_width := 600 |}
                        {| icon := "align-left"; prefix := "fa";
                           color := "blue"; icon_color := "#000" |}
                        (JStr "Trailhead")];
              stdout := [] |}
    /\ exists coordinates lon_ lat_ popup_content custom_icon,
         geometry_coordinates (JObj text_point_items) = Ok coordinates
         /\ py_unpack2 coordinates = Ok (lon_, lat_)
         /\ lat e = lat_ /\ lon e = lon_
         /\ create_bookmark_content online
              (dict_get text_point_items "content" (JObj [])) = Ok popup_content
         /\ icon_of_content (dict_get text_point_items "content" (JObj []))
            = Ok custom_icon
         /\ features m'
            = [Marker (lat_, lon_)
                      {| html := popup_content; max_width := 600 |}
                      custom_icon (JStr "Trailhead")]
         /\ stdout m' = [].
Proof.
  do 2 eexists. split; [ reflexivity | ]. split; [ reflexivity | ].
  exact (add_bookmark_to_map_point_rendered online text_point_items empty_page
           sample_center _ _ eq_refl eq_refl).
Defined.

Lemma add_bookmark_to_map_linestring_anchor_sample :
  exists e m',
    add_bookmark_to_map online (JObj line_items) empty_page sample_center = Ok (e, m')
    /\ exists coordinates pairs lon_ lat_,
         geometry_coordinates (JObj line_items) = Ok coordinates
         /\ lon_lat_pairs coordinates = Ok pairs
         /\ nth_error pairs (Nat.div (length pairs) 2) = Some (lon_, lat_)
         /\ lat e = lat_ /\ lon e = lon_.
Proof.
  do 2 eexists. split; [ reflexivity | ].
  exact (add_bookmark_to_map_linestring_anchor online line_items empty_page
           sample_center _ _ eq_refl eq_refl).
Defined.

Lemma add_bookmark_to_map_polygon_rendered_sample :
  exists e m',
    add_bookmark_to_map online (JObj polygon_items) empty_page sample_center
    = Ok (e, m')
    /\ m' = {| features :=
                [Polygon (map swap (map (fun p => (JNum (fst p), JNum (snd p))) triangle))
                   (JStr "red") (JNum (float_of_Z 2)) (JStr "red")
                   (JNum (float_dec 5 (-1))) (JStr "Meadow")
                   {| html := "<div class='modal-content'><h3>Meadow</h3>"
                              ++ "<p>Area: 3.00 square miles</p></div>";
                      max_width := 600 |}];
              stdout := [] |}
    /\ exists coordinates ring pairs area content_html st,
         geometry_coordinates (JObj polygon_items) = Ok coordinates
         /\ py_getitem0 coordinates = Ok ring
         /\ lon_lat_pairs ring = Ok pairs
         /\ projected_area online pairs = Ok area
         /\ create_bookmark_content online
              (dict_get polygon_items "content" (JObj [])) = Ok content_html
         /\ dict_get polygon_items "style" (JObj []) = JObj st
         /\ features m'
            = [Polygon (map swap pairs)
                 (dict_get st "color" (JStr "red"))
                 (dict_get st "weight" (JNum (float_of_Z 2)))
                 (dict_get st "fillColor" (JStr "red"))
                 (dict_get st "fillOpacity" (JNum (float_dec 5 (-1))))
                 (JStr "Meadow")
                 {| html :=
                      measured_popup content_html "Meadow"
                        ("Area: "
                         ++ float_fmt2f (area / float_dec 259 4)%float
                         ++ " square miles");
                    max_width := 600 |}]
         /\ stdout m' = [].
Proof.
  do 2 eexists. split; [ reflexivity | ]. split; [ reflexivity | ].
  exact (add_bookmark_to_map_polygon_rendered online polygon_items empty_page
           sample_center _ _ eq_refl eq_refl).
Defined.

Lemma add_bookmark_to_map_adds_one_samples :
  (exists e m',
      add_bookmark_to_map online (JObj point_items) empty_page sample_center
      = Ok (e, m')
      /\ exists f, features m' = [f] /\ stdout m' = [])
  /\ (exists e m',
         add_bookmark_to_map online (JObj circle_items) empty_page sample_center
         = Ok (e, m')
         /\ features m' = []
         /\ stdout m' = ["Unsupported geometry type: Circle"]
         /\ lat e = fst sample_center /\ lon e = snd sample_center).
Proof.
  split.
  - do 2 eexists. split; [ reflexivity | ].
    exact (add_bookmark_to_map_adds_one online (JObj point_items) empty_page
             sample_center _ _ eq_refl).
  - do 2 eexists. split; [ reflexivity | ].
    exact (add_bookmark_to_map_adds_one online (JObj circle_items) empty_page
             sample_center _ _ eq_refl).
Defined.

Lemma add_bookmark_to_map_entry_view_samples :
  (exists e m',
      add_bookmark_to_map online (JObj text_point_items) empty_page sample_center
      = Ok (e, m')
      /\ zoom e = JNum (float_of_Z 15) /\ tile_layer e = JStr "Positron")
  /\ (exists e m',
         add_bookmark_to_map online (JObj circle_items) empty_page sample_center
         = Ok (e, m')
         /\ zoom e = JNum (float_of_Z 9) /\ tile_layer e = JStr "Esri Satellite").
Proof.
  split.
  - do 2 eexists. split; [ reflexivity | ].
    exact (add_bookmark_to_map_entry_view online text_point_items empty_page
             sample_center _ _ eq_refl).
  - do 2 eexists. split; [ reflexivity | ].
    exact (add_bookmark_to_map_entry_view online circle_items empty_page
             sample_center _ _ eq_refl).
Defined.

Lemma add_bookmark_to_map_point_arity_sample :
  add_bookmark_to_map online (JObj altitude_point_items) empty_page sample_center
  = Raise ValueError.
Proof.
  exact (add_bookmark_to_map_point_arity online altitude_point_items empty_page
           sample_center
           [JNum (float_dec (-1105) (-1)); JNum (float_dec 395 (-1));
            JNum (float_of_Z 3100)]
           eq_refl eq_refl ltac:(discriminate)).
Defined.

Lemma add_bookmark_to_map_without_coordinates_sample :
  exists x,
    add_bookmark_to_map online (JObj empty_polygon_items) empty_page sample_center
    = Raise x.
Proof.
  exact (add_bookmark_to_map_without_coordinates online empty_polygon_items
           empty_page sample_center eq_refl eq_refl).
Defined.

Lemma create_custom_icon_range_sample :
  create_custom_icon (JStr "audio" : json float)
  = Ok {| icon := "info-sign"; prefix := "fa"; color := "blue"; icon_color := "#000" |}
  /\ icon {| icon := "info-sign"; prefix := "fa"; color := "blue"; icon_color := "#000" |}
     = "info-sign".
Proof.
  split; [ reflexivity | ].
  exact (proj2 (proj2 (proj2 (proj2
           (create_custom_icon_range (JStr "audio" : json float)))))
           eq_refl eq_refl eq_refl).
Defined.

Lemma add_bookmark_to_map_point_ignores_style_sample :
  add_bookmark_to_map online (JObj null_style_point_items) empty_page sample_center
  = add_bookmark_to_map online (JObj point_items) empty_page sample_center.
Proof.
  apply (add_bookmark_to_map_point_ignores_style online point_items
           null_style_point_items empty_page sample_center); [ | reflexivity ].
  intros k Hk. unfold null_style_point_items. cbn [lookup].
  destruct (String.eqb_spec "style" k) as [E | _]; [ | reflexivity ].
  destruct (Hk (eq_sym E)).
Defined.

Lemma create_map_first_failure_sample :
  create_map online [JObj point_items; JObj altitude_point_items; JObj line_items]
             sample_center (JNum (float_of_Z 3))
  = Raise ValueError.
Proof.
  apply (create_map_first_failure online [JObj point_items] [JObj line_items]
           (JObj altitude_point_items) sample_center (JNum (float_of_Z 3)) ValueError).
  - reflexivity.
  - constructor; [ | constructor ]. do 2 eexists. reflexivity.
  - reflexivity.
Defined.

Lemma create_map_untitled_sample :
  create_map online [JObj point_items; JObj untitled_point_items]
             sample_center (JNum (float_of_Z 3))
  = Raise (KeyError "title").
Proof.
  apply (create_map_untitled online [JObj point_items] [] untitled_point_items
           sample_center (JNum (float_of_Z 3))).
  - reflexivity.
  - constructor; [ | constructor; [ | constructor ] ]; do 2 eexists; reflexivity.
  - constructor; [ | constructor ]. eexists. reflexivity.
  - reflexivity.
Defined.


Lemma create_map_returns_only_if_sample :
  folium_location online sample_center = None
  /\ Forall (renders online sample_center) sample_bookmarks
  /\ Forall titled sample_bookmarks.
Proof.
  assert (H : exists pg,
             create_map online sample_bookmarks sample_center (JNum (float_of_Z 3))
             = Ok pg)
    by (eexists; vm_compute; reflexivity).
  destruct H as [pg H].
  exact (create_map_returns_only_if online sample_bookmarks sample_center
           (JNum (float_of_Z 3)) pg H).
Defined.

Lemma extract_youtube_video_id_decorated_samples :
  extract_youtube_video_id online
    (JStr "https://www.youtube.com/watch?v=dQw4w9WgXcQ&t=42s")
  = Ok (Some "dQw4w9WgXcQ")
  /\ extract_youtube_video_id online (JStr "https://youtu.be/dQw4w9WgXcQ?t=42s")
     = Ok (Some "dQw4w9WgXcQ").
Proof.
  split.
  - exact (extract_youtube_video_id_decorated online "dQw4w9WgXcQ" "42s" _
             eq_refl eq_refl (or_intror (or_intror (or_introl eq_refl)))).
  - exact (extract_youtube_video_id_decorated online "dQw4w9WgXcQ" "42s" _
             eq_refl eq_refl (or_introl eq_refl)).
Defined.

Lemma extract_youtube_video_id_unrecognised_samples :
  extract_youtube_video_id online (JStr "youtu.be/dQw4w9WgXcQ") = Ok None
  /\ extract_youtube_video_id online
       (JStr "https://www.youtube.com/shorts/dQw4w9WgXcQ") = Ok None.
Proof.
  split.
  - exact (extract_youtube_video_id_unrecognised online "dQw4w9WgXcQ" _
             eq_refl (or_introl eq_refl)).
  - exact (extract_youtube_video_id_unrecognised online "dQw4w9WgXcQ" _
             eq_refl (or_intror (or_intror (or_intror (or_introl eq_refl))))).
Defined.

Lemma calculate_line_length_vertex_arity_sample :
  calculate_line_length online (JArr altitude_line) = Raise ValueError
  /\ calculate_polygon_area online (JArr [JArr altitude_line]) = Raise ValueError.
Proof.
  exact (calculate_line_length_vertex_arity online
           [JArr [JNum (float_dec (-1105) (-1)); JNum (float_dec 395 (-1))]]
           [] altitude_vertex [] _ eq_refl ltac:(discriminate)).
Defined.

Lemma add_bookmark_to_map_vertex_arity_sample :
  add_bookmark_to_map online (JObj altitude_line_items) empty_page sample_center
  = Raise ValueError.
Proof.
  exact (add_bookmark_to_map_vertex_arity online altitude_line_items empty_page
           sample_center
           [JArr [JNum (float_dec (-1105) (-1)); JNum (float_dec 395 (-1))]]
           [] altitude_vertex [] _ eq_refl ltac:(discriminate)
           (or_introl (conj eq_refl eq_refl))).
Defined.
